(** * dood_bot: the cross-chain event relay of [script.py]

    A shallow embedding of [ChainConnector], [DestinationChainOracle],
    [EventListenerService] and [main] from [src/script.py].

    Python objects are records of their attributes, dictionaries are
    [gmap string _], exceptions are values of [exn] carried by the [Raise]
    branch of a result, and every call that leaves the process
    ([requests.post], [get_new_entries], the Web3 connection, [time.sleep],
    the logger) is recorded in a chronological trace.  What the outside
    world answers to the n-th call of each kind is read from a [world]. *)

From stdpp Require Import base gmap strings list pretty.
From Stdlib Require Import ZArith Lia Ascii.

Local Open Scope string_scope.
Local Open Scope Z_scope.
Local Open Scope list_scope.

(** ** Python values *)

(** Values found inside the decoded [args] of a log. *)
Inductive atom :=
| ANone
| ABool (b : bool)
| AInt (n : Z)
| AStr (s : string).

(** Values found at the top level of a raw log or of a payload.  A
    [HexBytes] object is represented by the string its [.hex()] returns. *)
Inductive pyval :=
| PAtom (a : atom)
| PHexBytes (h : string)
| PDict (d : gmap string atom).

Abbreviation pydict := (gmap string pyval).

(** ** Exceptions *)

Inductive exn :=
| KeyError (key : string)
| AttributeError (what : string)
| ValueError (what : string)
| ConnectionError (what : string)
| RequestException (kind : string)
| KeyboardInterrupt
| SystemExit
| OtherException (name : string).

(** [isinstance(e, Exception)]: [KeyboardInterrupt] and [SystemExit] derive
    from [BaseException] only. *)
Definition is_Exception (e : exn) : bool :=
  match e with
  | KeyboardInterrupt | SystemExit => false
  | _ => true
  end.

(** [isinstance(e, requests.exceptions.RequestException)]. *)
Definition is_RequestException (e : exn) : bool :=
  match e with
  | RequestException _ => true
  | _ => false
  end.

(** [isinstance(e, ConnectionError)], the builtin one. *)
Definition is_ConnectionError (e : exn) : bool :=
  match e with
  | ConnectionError _ => true
  | _ => false
  end.

Definition is_AttributeError (e : exn) : bool :=
  match e with
  | AttributeError _ => true
  | _ => false
  end.

Definition is_KeyboardInterrupt (e : exn) : bool :=
  match e with
  | KeyboardInterrupt => true
  | _ => false
  end.

Inductive result (A : Type) :=
| Ok (a : A)
| Raise (e : exn).
Arguments Ok {A} a.
Arguments Raise {A} e.

(** ** The outside world *)

Definition handle := nat.
Bind Scope nat_scope with handle.

(** A [requests.Response]: its status code and what [.json()] does on it,
    either the decoded body or the exception the decoder raises. *)
Record response := {
  status_code : Z;
  json : result string
}.

(** The log lines of the program, one constructor per [logger] call. *)
Inductive level := DEBUG | INFO | WARNING | ERROR | CRITICAL.

Inductive message :=
| MsgConnected (address : string)
| MsgConnectError (e : exn)
| MsgRelaying (endpoint : string) (payload : pydict)
| MsgRelayed (body : string)
| MsgRelayFailed (e : exn)
| MsgEventNotFound (name : string)
| MsgNewEvent (name : string) (tx : string)
| MsgMissingArgs (event : pydict)
| MsgProcessed (tx : pyval)
| MsgAttemptFailed (attempt max_retries : Z)
| MsgRelayExhausted (max_retries : Z)
| MsgStarting (name : string)
| MsgNoNewEvents
| MsgShutdown
| MsgUnexpected (e : exn)
| MsgReconnecting
| MsgReconnected
| MsgReconnectFailed (e : exn)
| MsgMissingEnv
| MsgInitConnectionError (e : exn)
| MsgFatalSetup (e : exn).

Inductive effect :=
| ELog (lvl : level) (m : message)
| ERelayCall (event_data : pydict)
| EPost (url : string) (headers : gmap string string) (payload : pydict)
        (timeout : Z)
| ESleep (secs : Z)
| EPoll (filter : handle)
| EConnect (rpc_url : string)
| ECreateFilter (name : string)
| EBlockNumber.

(** What the world answers: the n-th [requests.post], the n-th
    [get_new_entries] on a given filter, the n-th connection attempt, the
    n-th [create_filter], the n-th read of [eth.block_number].  A connection
    attempt builds the provider object [w3] and then either finds the node
    up and builds the contract object [c], or finds it down
    ([is_connected()] is false), or raises while building the contract. *)
Inductive connect_result :=
| ConnectUp (w3 c : handle)
| ConnectDown (w3 : handle)
| ConnectRaises (w3 : handle) (e : exn).

Record world := {
  post_outcome : nat → result response;
  poll_outcome : nat → handle → result (list pydict);
  connect_outcome : nat → connect_result;
  create_filter_outcome : nat → result handle;
  block_number_outcome : nat → result Z
}.

(** ** Program state

    The trace, the call counters that index the world, and the mutable
    attributes of the [ChainConnector] and [EventListenerService]
    instances. *)
Record heap := {
  trace : list effect;
  posts_made : nat;
  polls_made : nat;
  connects_made : nat;
  filters_made : nat;
  heights_read : nat;
  web3 : option handle;
  contract : option handle;
  event_filter : option handle;
  last_processed_block : option Z
}.

Definition emit (x : effect) (h : heap) : heap :=
  {| trace := trace h ++ [x]; posts_made := posts_made h;
     polls_made := polls_made h; connects_made := connects_made h;
     filters_made := filters_made h; heights_read := heights_read h;
     web3 := web3 h; contract := contract h;
     event_filter := event_filter h;
     last_processed_block := last_processed_block h |}.

Definition bump_posts (h : heap) : heap :=
  {| trace := trace h; posts_made := S (posts_made h);
     polls_made := polls_made h; connects_made := connects_made h;
     filters_made := filters_made h; heights_read := heights_read h;
     web3 := web3 h; contract := contract h;
     event_filter := event_filter h;
     last_processed_block := last_processed_block h |}.

Definition bump_polls (h : heap) : heap :=
  {| trace := trace h; posts_made := posts_made h;
     polls_made := S (polls_made h); connects_made := connects_made h;
     filters_made := filters_made h; heights_read := heights_read h;
     web3 := web3 h; contract := contract h;
     event_filter := event_filter h;
     last_processed_block := last_processed_block h |}.

Definition bump_connects (h : heap) : heap :=
  {| trace := trace h; posts_made := posts_made h;
     polls_made := polls_made h; connects_made := S (connects_made h);
     filters_made := filters_made h; heights_read := heights_read h;
     web3 := web3 h; contract := contract h;
     event_filter := event_filter h;
     last_processed_block := last_processed_block h |}.

Definition bump_filters (h : heap) : heap :=
  {| trace := trace h; posts_made := posts_made h;
     polls_made := polls_made h; connects_made := connects_made h;
     filters_made := S (filters_made h); heights_read := heights_read h;
     web3 := web3 h; contract := contract h;
     event_filter := event_filter h;
     last_processed_block := last_processed_block h |}.

Definition bump_heights (h : heap) : heap :=
  {| trace := trace h; posts_made := posts_made h;
     polls_made := polls_made h; connects_made := connects_made h;
     filters_made := filters_made h; heights_read := S (heights_read h);
     web3 := web3 h; contract := contract h;
     event_filter := event_filter h;
     last_processed_block := last_processed_block h |}.

Definition set_web3 (v : option handle) (h : heap) : heap :=
  {| trace := trace h; posts_made := posts_made h;
     polls_made := polls_made h; connects_made := connects_made h;
     filters_made := filters_made h; heights_read := heights_read h;
     web3 := v; contract := contract h;
     event_filter := event_filter h;
     last_processed_block := last_processed_block h |}.

Definition set_contract (v : option handle) (h : heap) : heap :=
  {| trace := trace h; posts_made := posts_made h;
     polls_made := polls_made h; connects_made := connects_made h;
     filters_made := filters_made h; heights_read := heights_read h;
     web3 := web3 h; contract := v;
     event_filter := event_filter h;
     last_processed_block := last_processed_block h |}.

Definition set_event_filter (v : option handle) (h : heap) : heap :=
  {| trace := trace h; posts_made := posts_made h;
     polls_made := polls_made h; connects_made := connects_made h;
     filters_made := filters_made h; heights_read := heights_read h;
     web3 := web3 h; contract := contract h;
     event_filter := v;
     last_processed_block := last_processed_block h |}.

Definition set_last_processed_block (v : option Z) (h : heap) : heap :=
  {| trace := trace h; posts_made := posts_made h;
     polls_made := polls_made h; connects_made := connects_made h;
     filters_made := filters_made h; heights_read := heights_read h;
     web3 := web3 h; contract := contract h;
     event_filter := event_filter h;
     last_processed_block := v |}.

Definition fresh_heap : heap :=
  {| trace := []; posts_made := 0; polls_made := 0; connects_made := 0;
     filters_made := 0; heights_read := 0; web3 := None; contract := None;
     event_filter := None; last_processed_block := None |}.

(** ** The monad of the program: state passing with exceptions *)

Definition M (A : Type) : Type := heap → result A * heap.

Definition ret {A} (a : A) : M A := λ h, (Ok a, h).

Definition raise {A} (e : exn) : M A := λ h, (Raise e, h).

Definition bind {A B} (m : M A) (k : A → M B) : M B :=
  λ h, match m h with
       | (Ok a, h') => k a h'
       | (Raise e, h') => (Raise e, h')
       end.

(** [try: body except <class> as e: handler e]; an exception outside the
    class propagates. *)
Definition try_except {A} (body : M A) (class : exn → bool)
    (handler : exn → M A) : M A :=
  λ h, match body h with
       | (Ok a, h') => (Ok a, h')
       | (Raise e, h') => if class e then handler e h' else (Raise e, h')
       end.

(** [try: body except c1: h1 except c2: h2]: the first clause whose class
    matches handles the exception. *)
Definition try_except2 {A} (body : M A) (c1 : exn → bool) (h1 : exn → M A)
    (c2 : exn → bool) (h2 : exn → M A) : M A :=
  λ h, match body h with
       | (Ok a, h') => (Ok a, h')
       | (Raise e, h') =>
           if c1 e then h1 e h'
           else if c2 e then h2 e h'
           else (Raise e, h')
       end.

Declare Scope py_scope.
Delimit Scope py_scope with py.
Notation "'do' x <- m ; k" := (bind m (λ x, k))
  (at level 10, x name, m at level 100, k at level 200) : py_scope.
Notation "m ;; k" := (bind m (λ _, k))
  (at level 100, k at level 200, right associativity) : py_scope.
Local Open Scope py_scope.

Definition modify (f : heap → heap) : M unit := λ h, (Ok tt, f h).
Definition gets {A} (f : heap → A) : M A := λ h, (Ok (f h), h).

Definition log (lvl : level) (m : message) : M unit :=
  modify (emit (ELog lvl m)).

(** [time.sleep(secs)] that completes: the duration is not negative and no
    signal is delivered during it ([interruptible_sleep] below covers the
    signal for the delay of the recovery). *)
Definition sleep (secs : Z) : M unit := modify (emit (ESleep secs)).

(** [d[key]]: [KeyError] when the key is absent. *)
Definition getitem {V} (d : gmap string V) (key : string) : M V :=
  match d !! key with
  | Some v => ret v
  | None => raise (KeyError key)
  end.

(** [d.get(key)] on a dictionary of atoms: [None] when the key is absent. *)
Definition dict_get (d : gmap string atom) (key : string) : atom :=
  default ANone (d !! key).

(** [str(x)] on an atom; for an integer, its decimal digits (integers of
    more than 4300 digits, which [str] refuses on recent Pythons, are not
    told apart). *)
Definition py_str (a : atom) : string :=
  match a with
  | ANone => "None"
  | ABool true => "True"
  | ABool false => "False"
  | AInt n => pretty n
  | AStr s => s
  end.

(** [range(n)]. *)
Definition py_range (n : nat) : list Z := Z.of_nat <$> seq 0 n.

(** ** Configuration fixed at construction *)

Record config := {
  rpc_url : string;
  contract_address : string;
  contract_abi : list string;
  api_endpoint : string;
  api_key : string;
  event_name : string;
  source_chain_id : Z
}.

(** [DestinationChainOracle.__init__]: the headers of every request. *)
Definition headers (cfg : config) : gmap string string :=
  {[ "Content-Type" := "application/json"; "X-API-KEY" := api_key cfg ]}.

Section Program.

Context (w : world) (cfg : config).

(** ** DestinationChainOracle *)

(** [requests.post(url, headers=..., json=payload, timeout=10)]. *)
Definition requests_post (url : string) (hd : gmap string string)
    (payload : pydict) (timeout : Z) : M response :=
  do n <- gets posts_made;
  modify (λ h, bump_posts (emit (EPost url hd payload timeout) h));;
  match post_outcome w n with
  | Ok r => ret r
  | Raise e => raise e
  end.

(** [response.raise_for_status()]: an [HTTPError] for 4xx and 5xx. *)
Definition raise_for_status (r : response) : M unit :=
  if bool_decide (400 ≤ status_code r < 600)
  then raise (RequestException "HTTPError")
  else ret tt.

(** [response.json()]. *)
Definition response_json (r : response) : M string :=
  match json r with
  | Ok body => ret body
  | Raise e => raise e
  end.

Definition relay_event (event_data : pydict) : M bool :=
  modify (emit (ERelayCall event_data));;
  try_except
    (do tx <- getitem event_data "transactionHash";
     do src <- getitem event_data "source_chain_id";
     do dst <- getitem event_data "destination_chain_id";
     do user <- getitem event_data "user";
     do token <- getitem event_data "token";
     do amount <- getitem event_data "amount";
     do block <- getitem event_data "block_number";
     let payload : pydict :=
       {[ "source_tx_hash" := tx;
          "source_chain_id" := src;
          "destination_chain_id" := dst;
          "user" := user;
          "token" := token;
          "amount" := amount;
          "block_number" := block ]} in
     log INFO (MsgRelaying (api_endpoint cfg) payload);;
     do response <- requests_post (api_endpoint cfg) (headers cfg) payload 10;
     raise_for_status response;;
     do body <- response_json response;
     log INFO (MsgRelayed body);;
     ret true)
    is_RequestException
    (λ e, log ERROR (MsgRelayFailed e);; ret false).

(** ** ChainConnector *)

(** [ChainConnector._connect].  The world says whether the node answers
    the liveness probe and whether the contract object can be built. *)
Definition _connect : M unit :=
  try_except
    (do n <- gets connects_made;
     modify (λ h, bump_connects (emit (EConnect (rpc_url cfg)) h));;
     match connect_outcome w n with
     | ConnectDown w3 =>
         modify (set_web3 (Some w3));;
         raise (ConnectionError "Failed to connect to blockchain node")
     | ConnectRaises w3 e =>
         modify (set_web3 (Some w3));;
         raise e
     | ConnectUp w3 c =>
         modify (set_web3 (Some w3));;
         modify (set_contract (Some c));;
         log INFO (MsgConnected (contract_address cfg))
     end)
    is_Exception
    (λ e, log ERROR (MsgConnectError e);;
          raise (ConnectionError "Could not establish connection")).

(** [ChainConnector.__init__]. *)
Definition ChainConnector_init : M unit :=
  modify (set_web3 None);;
  modify (set_contract None);;
  _connect.

Definition get_latest_block_number : M Z :=
  do w3 <- gets web3;
  match w3 with
  | None => raise (ConnectionError "Web3 provider not initialized.")
  | Some _ =>
      do n <- gets heights_read;
      modify (λ h, bump_heights (emit EBlockNumber h));;
      match block_number_outcome w n with
      | Ok b => ret b
      | Raise e => raise e
      end
  end.

(** ** EventListenerService *)

Definition _create_event_filter : M handle :=
  do c <- gets contract;
  match c with
  | None => raise (ValueError "Contract not initialized in ChainConnector.")
  | Some _ =>
      try_except
        (if bool_decide (event_name cfg ∈ contract_abi cfg)
         then
           do n <- gets filters_made;
           modify (λ h, bump_filters (emit (ECreateFilter (event_name cfg)) h));;
           match create_filter_outcome w n with
           | Ok f => ret f
           | Raise e => raise e
           end
         else raise (AttributeError (event_name cfg)))
        is_AttributeError
        (λ e, log ERROR (MsgEventNotFound (event_name cfg));; raise e)
  end.

(** [EventListenerService.__init__]. *)
Definition EventListenerService_init : M unit :=
  do f <- _create_event_filter;
  modify (set_event_filter (Some f));;
  do b <- get_latest_block_number;
  modify (set_last_processed_block (Some (b - 1))).

(** [x.hex()]: only a [HexBytes] has the method. *)
Definition hex (x : pyval) : M string :=
  match x with
  | PHexBytes h => ret h
  | _ => raise (AttributeError "hex")
  end.

(** [x.get(key)]: only a dictionary has the method. *)
Definition get (x : pyval) (key : string) : M atom :=
  match x with
  | PDict d => ret (dict_get d key)
  | _ => raise (AttributeError "get")
  end.

Definition max_retries : nat := 3.

(** The [for attempt in range(max_retries): ... else: ...] of
    [_process_event], by recursion on the attempts still to make; the empty
    list is the [else] branch, taken when no [break] happened. *)
Fixpoint relay_with_retries (attempts : list Z) (processed_data : pydict)
    : M unit :=
  match attempts with
  | [] => log ERROR (MsgRelayExhausted (Z.of_nat max_retries))
  | attempt :: rest =>
      do ok <- relay_event processed_data;
      if ok
      then
        do tx <- getitem processed_data "transactionHash";
        log INFO (MsgProcessed tx)
      else
        log WARNING (MsgAttemptFailed (attempt + 1) (Z.of_nat max_retries));;
        sleep (2 ^ attempt);;
        relay_with_retries rest processed_data
  end.

Definition _process_event (event : pydict) : M unit :=
  do txh <- getitem event "transactionHash";
  do tx <- hex txh;
  log INFO (MsgNewEvent (event_name cfg) tx);;
  match event !! "args" with
  | None => log WARNING (MsgMissingArgs event)
  | Some event_args =>
      do txh' <- getitem event "transactionHash";
      do tx' <- hex txh';
      do block <- getitem event "blockNumber";
      do dst <- get event_args "destinationChainId";
      do user <- get event_args "user";
      do token <- get event_args "token";
      do amount <- get event_args "amount";
      let processed_data : pydict :=
        {[ "transactionHash" := PAtom (AStr tx');
           "block_number" := block;
           "source_chain_id" := PAtom (AInt (source_chain_id cfg));
           "destination_chain_id" := PAtom dst;
           "user" := PAtom user;
           "token" := PAtom token;
           "amount" := PAtom (AStr (py_str amount)) ]} in
      relay_with_retries (py_range max_retries) processed_data
  end.

(** [for event in logs: self._process_event(event)]. *)
Fixpoint process_all (logs : list pydict) : M unit :=
  match logs with
  | [] => ret tt
  | event :: rest => _process_event event;; process_all rest
  end.

(** [self.event_filter.get_new_entries()]. *)
Definition get_new_entries : M (list pydict) :=
  do f <- gets event_filter;
  match f with
  | None => raise (AttributeError "event_filter")
  | Some f =>
      do n <- gets polls_made;
      modify (λ h, bump_polls (emit (EPoll f) h));;
      match poll_outcome w n f with
      | Ok logs => ret logs
      | Raise e => raise e
      end
  end.

Definition _reconnect_and_recreate_filter : M unit :=
  try_except
    (_connect;;
     do f <- _create_event_filter;
     modify (set_event_filter (Some f));;
     log INFO MsgReconnected)
    is_Exception
    (λ e, log ERROR (MsgReconnectFailed e)).

(** The [try] block of the loop in [run]: one poll and the processing of
    what it returned. *)
Definition poll_and_process (poll_interval : Z) : M unit :=
  do logs <- get_new_entries;
  (match logs with
   | [] => log DEBUG MsgNoNewEvents
   | _ => process_all logs
   end);;
  sleep poll_interval.

(** The delay before reconnecting, [time.sleep(15)]. *)
Definition reconnect_delay : Z := 15.

(** The [except Exception] clause of the loop in [run]. *)
Definition recover (e : exn) : M unit :=
  log CRITICAL (MsgUnexpected e);;
  log INFO MsgReconnecting;;
  sleep reconnect_delay;;
  _reconnect_and_recreate_filter.

Inductive loop_ctl := Continue | Break.

(** One turn of [while True] in [run]. *)
Definition run_iteration (poll_interval : Z) : M loop_ctl :=
  try_except2
    (poll_and_process poll_interval;; ret Continue)
    is_KeyboardInterrupt (λ _, log INFO MsgShutdown;; ret Break)
    is_Exception (λ e, recover e;; ret Continue).

(** Whether [run] has returned or is still looping when the fuel, a bound
    on the number of turns observed, runs out. *)
Inductive run_status := Returned | Running.

Fixpoint run_loop (fuel : nat) (poll_interval : Z) : M run_status :=
  match fuel with
  | O => ret Running
  | S fuel' =>
      do c <- run_iteration poll_interval;
      match c with
      | Break => ret Returned
      | Continue => run_loop fuel' poll_interval
      end
  end.

Definition run (fuel : nat) (poll_interval : Z) : M run_status :=
  log INFO (MsgStarting (event_name cfg));;
  run_loop fuel poll_interval.

End Program.

(** ** main *)

(** Truthiness of what [os.getenv] returns: set and not empty. *)
Definition truthy (v : option string) : bool :=
  match v with
  | None | Some "" => false
  | Some _ => true
  end.

(** [all([...])]. *)
Definition py_all (l : list bool) : bool := forallb id l.

Definition BRIDGE_ABI : list string := ["BridgeDepositInitiated"].

(** The default value of [poll_interval] in [run]. *)
Definition default_poll_interval : Z := 5.

Definition main (w : world) (environ : gmap string string) (fuel : nat)
    : M unit :=
  let SOURCE_CHAIN_RPC_URL := environ !! "SOURCE_CHAIN_RPC_URL" in
  let BRIDGE_CONTRACT_ADDRESS := environ !! "BRIDGE_CONTRACT_ADDRESS" in
  let DESTINATION_API_ENDPOINT := environ !! "DESTINATION_API_ENDPOINT" in
  let DESTINATION_API_KEY := environ !! "DESTINATION_API_KEY" in
  if negb (py_all [truthy SOURCE_CHAIN_RPC_URL; truthy BRIDGE_CONTRACT_ADDRESS;
                   truthy DESTINATION_API_ENDPOINT; truthy DESTINATION_API_KEY])
  then log ERROR MsgMissingEnv
  else
    let cfg :=
      {| rpc_url := default "" SOURCE_CHAIN_RPC_URL;
         contract_address := default "" BRIDGE_CONTRACT_ADDRESS;
         contract_abi := BRIDGE_ABI;
         api_endpoint := default "" DESTINATION_API_ENDPOINT;
         api_key := default "" DESTINATION_API_KEY;
         event_name := "BridgeDepositInitiated";
         source_chain_id := 1 |} in
    try_except2
      (ChainConnector_init w cfg;;
       EventListenerService_init w cfg;;
       run w cfg fuel default_poll_interval;;
       ret tt)
      is_ConnectionError (λ e, log CRITICAL (MsgInitConnectionError e))
      is_Exception (λ e, log CRITICAL (MsgFatalSetup e)).

(** ** Reading traces *)

Definition is_relay_call (x : effect) : bool :=
  match x with ERelayCall _ => true | _ => false end.

Definition is_post (x : effect) : bool :=
  match x with EPost _ _ _ _ => true | _ => false end.

Definition is_sleep (x : effect) : bool :=
  match x with ESleep _ => true | _ => false end.

Fixpoint count (p : effect → bool) (t : list effect) : nat :=
  match t with
  | [] => 0
  | x :: t' => (if p x then 1 else 0) + count p t'
  end.

(** The durations slept, in order. *)
Fixpoint sleeps (t : list effect) : list Z :=
  match t with
  | [] => []
  | ESleep n :: t' => n :: sleeps t'
  | _ :: t' => sleeps t'
  end.

(** The heap [h] after [posts] more requests and the effects [new]. *)
Definition extend (posts : nat) (new : list effect) (h : heap) : heap :=
  {| trace := trace h ++ new; posts_made := posts + posts_made h;
     polls_made := polls_made h; connects_made := connects_made h;
     filters_made := filters_made h; heights_read := heights_read h;
     web3 := web3 h; contract := contract h;
     event_filter := event_filter h;
     last_processed_block := last_processed_block h |}.

(** The keys [relay_event] indexes. *)
Definition relay_keys : list string :=
  ["transactionHash"; "source_chain_id"; "destination_chain_id"; "user";
   "token"; "amount"; "block_number"].

Definition complete (d : pydict) : Prop :=
  Forall (λ k, is_Some (d !! k)) relay_keys.

Global Instance pyval_inhabited : Inhabited pyval := populate (PAtom ANone).

(** The payload [relay_event] builds from a complete [event_data]. *)
Definition payload_of (d : pydict) : pydict :=
  {[ "source_tx_hash" := d !!! "transactionHash";
     "source_chain_id" := d !!! "source_chain_id";
     "destination_chain_id" := d !!! "destination_chain_id";
     "user" := d !!! "user";
     "token" := d !!! "token";
     "amount" := d !!! "amount";
     "block_number" := d !!! "block_number" ]}.

(** The dictionary [_process_event] hands to the oracle for a log whose
    transaction hash renders as [tx], whose block number is [block] and
    whose arguments are [args]. *)
Definition processed_data_of (cfg : config) (tx : string) (block : pyval)
    (args : gmap string atom) : pydict :=
  {[ "transactionHash" := PAtom (AStr tx);
     "block_number" := block;
     "source_chain_id" := PAtom (AInt (source_chain_id cfg));
     "destination_chain_id" := PAtom (dict_get args "destinationChainId");
     "user" := PAtom (dict_get args "user");
     "token" := PAtom (dict_get args "token");
     "amount" := PAtom (AStr (py_str (dict_get args "amount"))) ]}.

(** What [relay_event] returns, read off what [requests.post] answered
    (lemma [relay_event_complete] ties it to [relay_event]). *)
Definition relay_verdict (o : result response) : result bool :=
  match o with
  | Raise e => if is_RequestException e then Ok false else Raise e
  | Ok r =>
      if bool_decide (400 ≤ status_code r < 600) then Ok false
      else match json r with
           | Ok _ => Ok true
           | Raise e => if is_RequestException e then Ok false else Raise e
           end
  end.

(** The log line [relay_event] writes after the request, if any. *)
Definition relay_epilogue (o : result response) : list effect :=
  match o with
  | Raise e =>
      if is_RequestException e then [ELog ERROR (MsgRelayFailed e)] else []
  | Ok r =>
      if bool_decide (400 ≤ status_code r < 600)
      then [ELog ERROR (MsgRelayFailed (RequestException "HTTPError"))]
      else match json r with
           | Ok body => [ELog INFO (MsgRelayed body)]
           | Raise e =>
               if is_RequestException e
               then [ELog ERROR (MsgRelayFailed e)] else []
           end
  end.

Definition relay_effects (cfg : config) (d : pydict) (o : result response)
    : list effect :=
  [ERelayCall d; ELog INFO (MsgRelaying (api_endpoint cfg) (payload_of d));
   EPost (api_endpoint cfg) (headers cfg) (payload_of d) 10]
  ++ relay_epilogue o.

(** ** Vocabulary of the statements and sample inputs *)

(** The heap right after [get_new_entries] polled filter [f]. *)
Definition polled (f : handle) (h : heap) : heap :=
  bump_polls (emit (EPoll f) h).

Definition sample_cfg : config :=
  {| rpc_url := "http://node.example"; contract_address := "0xBridge";
     contract_abi := ["BridgeDepositInitiated"];
     api_endpoint := "http://relayer.example/relay"; api_key := "secret";
     event_name := "BridgeDepositInitiated"; source_chain_id := 1 |}.

Definition sample_args : gmap string atom :=
  {[ "user" := AStr "0xA"; "token" := AStr "0xB";
     "amount" := AInt 1000000000000000000; "destinationChainId" := AInt 2 ]}.

Definition sample_log : pydict :=
  {[ "transactionHash" := PHexBytes "0xabc";
     "blockNumber" := PAtom (AInt 100);
     "args" := PDict sample_args ]}.

(** An HTTP answer with the given status and a JSON body. *)
Definition http (status : Z) : result response :=
  Ok {| status_code := status; json := Ok "{}" |}.

(** A world in which the node is up, the filter returns [logs] at every
    poll and the destination answers as [posts] says. *)
Definition world_with (posts : nat → result response) (logs : list pydict)
    : world :=
  {| post_outcome := posts;
     poll_outcome := λ _ _, Ok logs;
     connect_outcome := λ n, ConnectUp n n;
     create_filter_outcome := λ n, Ok n;
     block_number_outcome := λ _, Ok 100 |}.

(** The destination answers 500 to every request. *)
Definition world_500 : world := world_with (λ _, http 500) [sample_log].

(** The destination answers 500 once and 200 from then on. *)
Definition world_500_then_200 : world :=
  world_with (λ n, match n with O => http 500 | _ => http 200 end)
    [sample_log].

(** A service that was constructed: connected, with filter 0. *)
Definition started_heap : heap :=
  {| trace := []; posts_made := 0; polls_made := 0; connects_made := 1;
     filters_made := 1; heights_read := 1; web3 := Some 0%nat;
     contract := Some 0%nat; event_filter := Some 0%nat;
     last_processed_block := Some 99 |}.

(** A log that has neither ['args'] nor ['transactionHash']. *)
Definition log_without_tx : pydict :=
  {[ "blockNumber" := PAtom (AInt 100) ]}.

(** A log that has a transaction hash and nothing else. *)
Definition log_without_args : pydict :=
  {[ "transactionHash" := PHexBytes "0xabc" ]}.

(** A log that misses a key [_process_event] indexes: no
    ['transactionHash'], or ['args'] present and no ['blockNumber']. *)
Definition lacks_required_key (event : pydict) : Prop :=
  event !! "transactionHash" = None
  ∨ (is_Some (event !! "args") ∧ event !! "blockNumber" = None).

Definition is_digit (c : ascii) : bool :=
  (48 <=? nat_of_ascii c)%nat && (nat_of_ascii c <=? 57)%nat.

Fixpoint all_digits (s : string) : bool :=
  match s with
  | EmptyString => true
  | String c s' => is_digit c && all_digits s'
  end.

Definition nonempty (s : string) : bool :=
  match s with
  | EmptyString => false
  | String _ _ => true
  end.

(** A decimal string: digits, at least one, after an optional minus sign. *)
Definition is_decimal (s : string) : bool :=
  match s with
  | String "-" s' => nonempty s' && all_digits s'
  | _ => nonempty s && all_digits s
  end.

(** The payloads posted, in order. *)
Fixpoint posted_payloads (t : list effect) : list pydict :=
  match t with
  | [] => []
  | EPost _ _ p _ :: t' => p :: posted_payloads t'
  | _ :: t' => posted_payloads t'
  end.

(** A log that carries ['args'] without an ['amount']. *)
Definition log_without_amount : pydict :=
  {[ "transactionHash" := PHexBytes "0xabc";
     "blockNumber" := PAtom (AInt 100);
     "args" := PDict {[ "user" := AStr "0xA"; "token" := AStr "0xB";
                        "destinationChainId" := AInt 2 ]} ]}.

(** A 204 whose empty body the JSON decoder refuses with the
    [JSONDecodeError] of [requests.exceptions]. *)
Definition no_content : result response :=
  Ok {| status_code := 204;
        json := Raise (RequestException "JSONDecodeError") |}.

(** A computation is blind to the cursor when running it from a heap with
    another [last_processed_block] gives the same result and the same final
    heap, cursor apart: it neither reads nor writes the attribute. *)
Definition cursor_blind {A} (m : M A) : Prop :=
  ∀ c h, m (set_last_processed_block c h)
         = (fst (m h), set_last_processed_block c (snd (m h))).

(** The heap [main] has built when it calls [run] in [world_500]. *)
Definition connected_heap : heap :=
  snd (ChainConnector_init world_500 sample_cfg fresh_heap).

Definition constructed_heap : heap :=
  snd (EventListenerService_init world_500 sample_cfg connected_heap).

(** The world raises only exceptions of class [Exception] while
    reconnecting: no [KeyboardInterrupt] or [SystemExit] arrives there. *)
Definition ordinary_failures (w : world) : Prop :=
  (∀ n w3 e, connect_outcome w n = ConnectRaises w3 e → is_Exception e = true)
  ∧ (∀ n e, create_filter_outcome w n = Raise e → is_Exception e = true).

(** How a reconnection ended: with a new filter, or with the failure logged
    and the old filter kept. *)
Definition reconnected (w : world) (h h2 : heap) (after : list effect)
    : Prop :=
  (∃ f', create_filter_outcome w (filters_made h) = Ok f'
         ∧ event_filter h2 = Some f'
         ∧ last after = Some (ELog INFO MsgReconnected))
  ∨ (∃ e', is_Exception e' = true
           ∧ event_filter h2 = event_filter h
           ∧ last after = Some (ELog ERROR (MsgReconnectFailed e'))).

(** A world where the first poll raises, the node is then found down, and
    the later polls of the old filter answer again. *)
Definition world_outage : world :=
  {| post_outcome := λ _, http 200;
     poll_outcome := λ n _,
       match n with
       | O => Raise (OtherException "RPCError")
       | _ => Ok []
       end;
     connect_outcome := λ _, ConnectDown 1;
     create_filter_outcome := λ n, Ok n;
     block_number_outcome := λ _, Ok 100 |}.

(** The variables [main] validates. *)
Definition required_vars : list string :=
  ["SOURCE_CHAIN_RPC_URL"; "BRIDGE_CONTRACT_ADDRESS";
   "DESTINATION_API_ENDPOINT"; "DESTINATION_API_KEY"].

Definition is_connect (x : effect) : bool :=
  match x with EConnect _ => true | _ => false end.

Definition is_poll (x : effect) : bool :=
  match x with EPoll _ => true | _ => false end.

(** An environment holding the four variables and nothing else. *)
Definition environ_four : gmap string string :=
  {[ "SOURCE_CHAIN_RPC_URL" := "http://node.example";
     "BRIDGE_CONTRACT_ADDRESS" := "0xBridge";
     "DESTINATION_API_ENDPOINT" := "http://relayer.example/relay";
     "DESTINATION_API_KEY" := "secret" ]}.

(** The configuration [main] builds from the four variables. *)
Definition main_config (environ : gmap string string) : config :=
  {| rpc_url := default "" (environ !! "SOURCE_CHAIN_RPC_URL");
     contract_address := default "" (environ !! "BRIDGE_CONTRACT_ADDRESS");
     contract_abi := BRIDGE_ABI;
     api_endpoint := default "" (environ !! "DESTINATION_API_ENDPOINT");
     api_key := default "" (environ !! "DESTINATION_API_KEY");
     event_name := "BridgeDepositInitiated";
     source_chain_id := 1 |}.

(** An environment in which the API key is not set: [main] logs the error
    and returns, nothing else happens. *)
Definition environ_no_key : gmap string string :=
  delete "DESTINATION_API_KEY" environ_four.

(** The first key, in the order [relay_event] indexes them, that
    [event_data] does not have. *)
Definition first_missing (d : pydict) : option string :=
  List.find (λ k, bool_decide (d !! k = None)) relay_keys.

(** The keys of the payload [relay_event] posts. *)
Definition payload_keys : gset string :=
  {[ "source_tx_hash"; "source_chain_id"; "destination_chain_id"; "user";
     "token"; "amount"; "block_number" ]}.

(** An event dictionary with a key the oracle does not forward. *)
Definition event_data_with_extra : pydict :=
  <[ "logIndex" := PAtom (AInt 7) ]>
    (processed_data_of sample_cfg "0xabc" (PAtom (AInt 100)) sample_args).

(** An event dictionary without its ['token']. *)
Definition event_data_without_token : pydict :=
  delete "token"
    (processed_data_of sample_cfg "0xabc" (PAtom (AInt 100)) sample_args).

(** The destination cannot be reached: [requests.post] raises the
    [ConnectionError] of [requests.exceptions]. *)
Definition world_unreachable : world :=
  world_with (λ _, Raise (RequestException "ConnectionError")) [sample_log].

(** The provider object and the exception of a connection attempt that
    does not end with a contract object: the [ConnectionError] that
    [_connect] raises itself when the node is down, or what the Web3 calls
    raised. *)
Definition connect_failure (o : connect_result) : option (handle * exn) :=
  match o with
  | ConnectUp _ _ => None
  | ConnectDown w3 =>
      Some (w3, ConnectionError "Failed to connect to blockchain node")
  | ConnectRaises w3 e => Some (w3, e)
  end.

Definition is_create_filter (x : effect) : bool :=
  match x with ECreateFilter _ => true | _ => false end.

(** A world whose node is down. *)
Definition world_down : world :=
  {| post_outcome := λ _, http 200;
     poll_outcome := λ _ _, Ok [];
     connect_outcome := λ _, ConnectDown 0;
     create_filter_outcome := λ n, Ok n;
     block_number_outcome := λ _, Ok 100 |}.

(** A world in which the connection attempt is interrupted from the
    keyboard. *)
Definition world_interrupted_connect : world :=
  {| post_outcome := λ _, http 200;
     poll_outcome := λ _ _, Raise (OtherException "RPCError");
     connect_outcome := λ _, ConnectRaises 0 KeyboardInterrupt;
     create_filter_outcome := λ n, Ok n;
     block_number_outcome := λ _, Ok 100 |}.

(** A world that never interrupts: every exception its calls raise is of
    class [Exception]. *)
Definition no_interrupts (w : world) : Prop :=
  (∀ n e, post_outcome w n = Raise e → is_Exception e = true)
  ∧ (∀ n r e, post_outcome w n = Ok r → json r = Raise e →
              is_Exception e = true)
  ∧ (∀ n f e, poll_outcome w n f = Raise e → is_Exception e = true)
  ∧ ordinary_failures w.

(** A computation that raises nothing outside [Exception]. *)
Definition raises_only_Exception {A} (m : M A) : Prop :=
  ∀ h e h', m h = (Raise e, h') → is_Exception e = true.

(** A computation that leaves the observation [f] of the heap as it is. *)
Definition preserves {A X} (f : heap → X) (m : M A) : Prop :=
  ∀ h, f (snd (m h)) = f h.

(** The attributes of the connector and of the service. *)
Definition attributes (h : heap)
    : option handle * option handle * option handle * option Z :=
  (web3 h, contract h, event_filter h, last_processed_block h).

(** The node is up and the filter returns the sample log at every poll, but
    the first request to the destination is interrupted from the keyboard. *)
Definition world_interrupted_post : world :=
  world_with (λ _, Raise KeyboardInterrupt) [sample_log].

(** What [_process_event] reads from a log that reaches the retry loop: the
    rendering of its transaction hash, its block number and its arguments. *)
Definition parse_log (event : pydict)
    : option (string * pyval * gmap string atom) :=
  match event !! "transactionHash", event !! "blockNumber",
        event !! "args" with
  | Some (PHexBytes tx), Some block, Some (PDict args) =>
      Some (tx, block, args)
  | _, _, _ => None
  end.

(** The payload on the wire for such a log. *)
Definition wire_payload (cfg : config) (tx : string) (block : pyval)
    (args : gmap string atom) : pydict :=
  {[ "source_tx_hash" := PAtom (AStr tx);
     "source_chain_id" := PAtom (AInt (source_chain_id cfg));
     "destination_chain_id" := PAtom (dict_get args "destinationChainId");
     "user" := PAtom (dict_get args "user");
     "token" := PAtom (dict_get args "token");
     "amount" := PAtom (AStr (py_str (dict_get args "amount")));
     "block_number" := block ]}.

Definition wire_payload_of (cfg : config)
    (p : string * pyval * gmap string atom) : pydict :=
  wire_payload cfg p.1.1 p.1.2 p.2.

(** A second log, from another transaction, with an amount only. *)
Definition partial_log : pydict :=
  {[ "transactionHash" := PHexBytes "0xdef";
     "blockNumber" := PAtom (AInt 101);
     "args" := PDict {[ "amount" := AInt 5 ]} ]}.

(** A log whose ['args'] is [None]. *)
Definition log_with_null_args : pydict :=
  {[ "transactionHash" := PHexBytes "0xabc";
     "blockNumber" := PAtom (AInt 100);
     "args" := PAtom ANone ]}.

(** A bridge contract address that [to_checksum_address] accepts: forty
    hexadecimal digits. *)
Definition bridge_address : string :=
  "0x00000000219ab540356cbb839cbe05303d7705fa".

(** An environment holding the four variables, with a well-formed contract
    address, and nothing else. *)
Definition environ_valid : gmap string string :=
  {[ "SOURCE_CHAIN_RPC_URL" := "http://127.0.0.1:8545";
     "BRIDGE_CONTRACT_ADDRESS" := bridge_address;
     "DESTINATION_API_ENDPOINT" := "http://relayer.example/relay";
     "DESTINATION_API_KEY" := "secret" ]}.

(** The environment [environ_valid] with one more variable. *)
Definition environ_valid_more : gmap string string :=
  <[ "POLL_INTERVAL" := "60" ]> environ_valid.

(** The configuration of a service on that contract. *)
Definition bridge_cfg : config :=
  {| rpc_url := "http://127.0.0.1:8545"; contract_address := bridge_address;
     contract_abi := ["BridgeDepositInitiated"];
     api_endpoint := "http://relayer.example/relay"; api_key := "secret";
     event_name := "BridgeDepositInitiated"; source_chain_id := 1 |}.

(** [time.sleep(secs)] as the recovery meets it: the sleep starts, and the
    world either lets it complete or delivers a signal during it, which
    raises [signal] (a [KeyboardInterrupt]) in the sleeping program. *)
Definition interruptible_sleep (signal : option exn) (secs : Z) : M unit :=
  sleep secs;;
  match signal with
  | Some s => raise s
  | None => ret tt
  end.

(** The [except Exception] clause of the loop in [run], with its delay open
    to a signal. *)
Definition recover_under (w : world) (cfg : config) (signal : option exn)
    (e : exn) : M unit :=
  log CRITICAL (MsgUnexpected e);;
  log INFO MsgReconnecting;;
  interruptible_sleep signal reconnect_delay;;
  _reconnect_and_recreate_filter w cfg.

(** One turn of [while True] in [run], with the delay of its recovery open
    to a signal; with no signal it is [run_iteration]. *)
Definition run_iteration_under (w : world) (cfg : config)
    (signal : option exn) (poll_interval : Z) : M loop_ctl :=
  try_except2
    (poll_and_process w cfg poll_interval;; ret Continue)
    is_KeyboardInterrupt (λ _, log INFO MsgShutdown;; ret Break)
    is_Exception (λ e, recover_under w cfg signal e;; ret Continue).

(** A world where the first poll raises and the node is found up again:
    the connection attempt builds provider 1 and contract 1, and the node
    creates filter 7. *)
Definition world_blip : world :=
  {| post_outcome := λ _, http 200;
     poll_outcome := λ n _,
       match n with
       | O => Raise (OtherException "RPCError")
       | _ => Ok []
       end;
     connect_outcome := λ _, ConnectUp 1 1;
     create_filter_outcome := λ _, Ok 7%nat;
     block_number_outcome := λ _, Ok 100 |}.

(** ** Basic facts *)

Ltac unfold_monad :=
  unfold bind, try_except, try_except2, getitem, log, sleep, modify, gets,
    ret, raise.

(** Heaps built by [emit] and [bump_posts] against their [extend] form. *)
Ltac canon_heap :=
  unfold extend, emit, bump_posts; simpl; rewrite <- ?app_assoc; simpl.

Lemma extend_0_nil h : extend 0 [] h = h.
Proof. destruct h; unfold extend; simpl. by rewrite app_nil_r. Qed.

Lemma extend_extend p q new new' h :
  extend q new' (extend p new h) = extend (q + p) (new ++ new') h.
Proof.
  unfold extend; simpl. f_equal; [by rewrite app_assoc | lia].
Qed.

Lemma emit_extend x p new h : emit x (extend p new h) = extend p (new ++ [x]) h.
Proof. unfold emit, extend; simpl. by rewrite app_assoc. Qed.

Lemma emit_as_extend x h : emit x h = extend 0 [x] h.
Proof. reflexivity. Qed.

Lemma count_app p t u : count p (t ++ u) = (count p t + count p u)%nat.
Proof. induction t as [|x t IH]; simpl; [done | rewrite IH; lia]. Qed.

Lemma sleeps_app t u : sleeps (t ++ u) = sleeps t ++ sleeps u.
Proof.
  induction t as [|x t IH]; simpl; [done |].
  destruct x; simpl; by rewrite ?IH.
Qed.

Lemma relay_epilogue_quiet o :
  count is_relay_call (relay_epilogue o) = 0%nat
  ∧ count is_post (relay_epilogue o) = 0%nat
  ∧ sleeps (relay_epilogue o) = [].
Proof.
  unfold relay_epilogue. destruct o as [r|e].
  - case_bool_decide; [done |]. destruct (json r) as [b|e]; [done |].
    by destruct (is_RequestException e).
  - by destruct (is_RequestException e).
Qed.

Lemma complete_lookup d k :
  complete d → k ∈ relay_keys → d !! k = Some (d !!! k).
Proof.
  intros Hd Hk. unfold complete in Hd. rewrite Forall_forall in Hd.
  destruct (Hd k Hk) as [v Hv]. rewrite Hv. f_equal.
  symmetry. by apply lookup_total_correct.
Qed.

Section Facts.

Context (w : world) (cfg : config).

(** [relay_event] on a complete dictionary: one request, the verdict of
    its answer, and nothing else. *)
Lemma relay_event_complete (d : pydict) (h : heap) :
  complete d →
  relay_event w cfg d h
  = (relay_verdict (post_outcome w (posts_made h)),
     extend 1 (relay_effects cfg d (post_outcome w (posts_made h))) h).
Proof.
  intros Hd.
  assert (∀ k, k ∈ relay_keys → d !! k = Some (d !!! k)) as Hk
    by (intros; by apply complete_lookup).
  unfold relay_event, requests_post, raise_for_status, response_json,
    relay_effects, relay_verdict, relay_epilogue.
  unfold_monad.
  rewrite !Hk by (unfold relay_keys; set_solver).
  fold (payload_of d). simpl.
  destruct (post_outcome w (posts_made h)) as [r|e]; simpl.
  - case_bool_decide; simpl; [by canon_heap |].
    destruct (json r) as [b|e]; simpl; [by canon_heap |].
    destruct (is_RequestException e); simpl; by canon_heap.
  - destruct (is_RequestException e); simpl; by canon_heap.
Qed.

Lemma processed_data_complete tx block args :
  complete (processed_data_of cfg tx block args).
Proof.
  unfold complete, relay_keys, processed_data_of.
  repeat constructor; eexists; simplify_map_eq; reflexivity.
Qed.

Lemma processed_data_tx tx block args :
  processed_data_of cfg tx block args !! "transactionHash"
  = Some (PAtom (AStr tx)).
Proof. unfold processed_data_of. by simplify_map_eq. Qed.

(** A log with a hashable transaction hash, a block number and a
    dictionary of arguments reaches the retry loop. *)
Lemma _process_event_well_formed event tx block args h :
  event !! "transactionHash" = Some (PHexBytes tx) →
  event !! "blockNumber" = Some block →
  event !! "args" = Some (PDict args) →
  _process_event w cfg event h
  = relay_with_retries w cfg (py_range max_retries)
      (processed_data_of cfg tx block args)
      (emit (ELog INFO (MsgNewEvent (event_name cfg) tx)) h).
Proof.
  intros Htx Hb Ha. unfold _process_event, hex, get. unfold_monad.
  rewrite Htx, Ha, Hb. simpl. reflexivity.
Qed.


(** The attempts before [a] fail and attempt [a] succeeds: the loop stops
    there, having slept once after each failure and not again. *)
Lemma relay_with_retries_success pre a post d h :
  complete d →
  (∀ i, (i < length pre)%nat →
        relay_verdict (post_outcome w (i + posts_made h)) = Ok false) →
  relay_verdict (post_outcome w (length pre + posts_made h)) = Ok true →
  ∃ before after,
    relay_with_retries w cfg (pre ++ a :: post) d h
    = (Ok tt, extend (S (length pre)) (before ++ ERelayCall d :: after) h)
    ∧ count is_relay_call before = length pre
    ∧ sleeps before = (λ a, 2 ^ a) <$> pre
    ∧ count is_relay_call after = 0%nat
    ∧ sleeps after = []
    ∧ last after = Some (ELog INFO (MsgProcessed (d !!! "transactionHash"))).
Proof.
  intros Hd. revert h. induction pre as [|b pre IH]; intros h Hfail Hok.
  - simpl in Hok.
    exists [], (ELog INFO (MsgRelaying (api_endpoint cfg) (payload_of d))
               :: EPost (api_endpoint cfg) (headers cfg) (payload_of d) 10
               :: relay_epilogue (post_outcome w (posts_made h))
               ++ [ELog INFO (MsgProcessed (d !!! "transactionHash"))]).
    destruct (relay_epilogue_quiet (post_outcome w (posts_made h)))
      as (Hc & _ & Hs).
    repeat split.
    + cbn [relay_with_retries app]. unfold bind at 1.
      rewrite relay_event_complete by done. rewrite Hok.
      unfold_monad.
      rewrite (complete_lookup d "transactionHash") by
        (done || (unfold relay_keys; set_solver)).
      rewrite emit_extend. unfold relay_effects.
      by rewrite <- !app_assoc.
    + simpl. by rewrite count_app, Hc.
    + simpl. by rewrite sleeps_app, Hs.
    + rewrite !last_cons, last_app. simpl. done.
  - pose proof (Hfail 0%nat ltac:(simpl; lia)) as H0. simpl in H0.
    set (E := relay_effects cfg d (post_outcome w (posts_made h))).
    set (h' := extend 1 (E ++ [ELog WARNING
                 (MsgAttemptFailed (b + 1) (Z.of_nat max_retries));
                 ESleep (2 ^ b)]) h).
    destruct (IH h') as (before & after & Hrun & Hcalls & Hsl & Hc & Hs & Hl).
    { intros i Hi. simpl.
      replace (i + S (posts_made h))%nat with (S i + posts_made h)%nat by lia.
      apply Hfail. simpl. lia. }
    { simpl.
      replace (length pre + S (posts_made h))%nat
        with (length (b :: pre) + posts_made h)%nat by (simpl; lia).
      done. }
    exists (E ++ [ELog WARNING (MsgAttemptFailed (b + 1) (Z.of_nat max_retries));
                  ESleep (2 ^ b)] ++ before), after.
    destruct (relay_epilogue_quiet (post_outcome w (posts_made h)))
      as (Hec & _ & Hes).
    repeat split; try done.
    + cbn [relay_with_retries app]. unfold bind at 1.
      rewrite relay_event_complete by done. rewrite H0. fold E.
      unfold_monad. rewrite !emit_extend, <- !app_assoc. simpl.
      change (relay_with_retries w cfg _ d _)
        with (relay_with_retries w cfg (pre ++ a :: post) d h').
      rewrite Hrun. f_equal.
      unfold h'. rewrite extend_extend. rewrite <- !app_assoc. simpl.
      f_equal. lia.
    + subst E. unfold relay_effects.
      rewrite !count_app. simpl. by rewrite Hcalls, Hec.
    + subst E. unfold relay_effects.
      rewrite !sleeps_app. simpl. by rewrite Hsl, Hes.
Qed.

Lemma get_new_entries_polled f h :
  event_filter h = Some f →
  get_new_entries w h
  = (poll_outcome w (polls_made h) f, polled f h).
Proof.
  intros Hf. unfold get_new_entries. unfold_monad. rewrite Hf. simpl.
  by destruct (poll_outcome w (polls_made h) f).
Qed.


(** A turn of the loop whose batch raises an [Exception] while being
    processed takes the recovery path. *)
Lemma run_iteration_batch_raises f logs pi h h2 e :
  event_filter h = Some f →
  poll_outcome w (polls_made h) f = Ok logs →
  process_all w cfg logs (polled f h) = (Raise e, h2) →
  is_Exception e = true →
  run_iteration w cfg pi h = (recover w cfg e;; ret Continue) h2.
Proof.
  intros Hf Hp Hall He. unfold run_iteration, poll_and_process.
  unfold try_except2, bind at 1 2 3.
  rewrite (get_new_entries_polled f) by done. rewrite Hp.
  destruct logs as [|ev logs].
  - simpl in Hall. unfold ret in Hall. congruence.
  - rewrite Hall. destruct e; try done.
Qed.

End Facts.

(** ** The retry loop *)

(** C1, evaluated on the code: a log whose delivery is answered 500 three
    times.  Three delivery calls are made and the loop sleeps 1, 2 and then
    4 time units; the sleep of 4 comes after the third and final attempt,
    between the "Attempt 3/3 ... Retrying..." warning and the terminal
    error, where the claim has no delay. *)
Theorem retry_loop_sleeps_after_final_attempt :
  let t := trace (snd (_process_event world_500 sample_cfg sample_log
                         started_heap)) in
  count is_relay_call t = 3%nat
  ∧ sleeps t = [1; 2; 4]
  ∧ drop (length t - 3) t
    = [ELog WARNING (MsgAttemptFailed 3 3); ESleep 4;
       ELog ERROR (MsgRelayExhausted 3)].
Proof. vm_compute. done. Qed.

(** C7: if delivery succeeds on attempt [k < 3], the attempts before it
    having failed, then exactly [k + 1] delivery calls are made, the loop
    has slept [2^0 .. 2^(k-1)] before the successful call and nothing is
    slept, and no call made, after it. *)
Theorem success_on_attempt_k_stops_retrying
    (w : world) (cfg : config) (event : pydict) (tx : string) (block : pyval)
    (args : gmap string atom) (h : heap) (k : nat) :
  event !! "transactionHash" = Some (PHexBytes tx) →
  event !! "blockNumber" = Some block →
  event !! "args" = Some (PDict args) →
  (k < max_retries)%nat →
  (∀ i, (i < k)%nat →
        relay_verdict (post_outcome w (i + posts_made h)) = Ok false) →
  relay_verdict (post_outcome w (k + posts_made h)) = Ok true →
  ∃ before after,
    let d := processed_data_of cfg tx block args in
    _process_event w cfg event h
    = (Ok tt, extend (S k) (before ++ ERelayCall d :: after) h)
    ∧ count is_relay_call (before ++ ERelayCall d :: after) = S k
    ∧ count is_relay_call before = k
    ∧ sleeps before = (λ a, 2 ^ a) <$> py_range k
    ∧ count is_relay_call after = 0%nat
    ∧ sleeps after = [].
Proof.
  intros Htx Hb Ha Hk Hfail Hok.
  assert (∃ a post, py_range max_retries = py_range k ++ a :: post
                    ∧ length (py_range k) = k) as (a & post & Hsplit & Hlen).
  { unfold max_retries in *.
    destruct k as [|[|[|k]]]; [| | | lia]; do 2 eexists; split; reflexivity. }
  set (h1 := emit (ELog INFO (MsgNewEvent (event_name cfg) tx)) h).
  destruct (relay_with_retries_success w cfg (py_range k) a post
              (processed_data_of cfg tx block args) h1)
    as (before & after & Hrun & Hc & Hs & Hca & Hsa & _).
  - apply processed_data_complete.
  - rewrite Hlen. exact Hfail.
  - rewrite Hlen. exact Hok.
  - exists (ELog INFO (MsgNewEvent (event_name cfg) tx) :: before), after.
    cbn zeta. rewrite Hlen in *. repeat split; try done.
    + rewrite (_process_event_well_formed w cfg event tx block args) by done.
      rewrite Hsplit. fold h1. rewrite Hrun. f_equal.
      unfold h1. rewrite emit_as_extend, extend_extend. f_equal. lia.
    + rewrite count_app. simpl. rewrite Hc, Hca. lia.
Qed.

Lemma success_on_attempt_k_stops_retrying_witness :
  ∃ before after,
    let d := processed_data_of sample_cfg "0xabc" (PAtom (AInt 100))
               sample_args in
    _process_event world_500_then_200 sample_cfg sample_log started_heap
    = (Ok tt, extend 2 (before ++ ERelayCall d :: after) started_heap)
    ∧ count is_relay_call (before ++ ERelayCall d :: after) = 2%nat
    ∧ count is_relay_call before = 1%nat
    ∧ sleeps before = (λ a, 2 ^ a) <$> py_range 1
    ∧ count is_relay_call after = 0%nat
    ∧ sleeps after = [].
Proof.
  apply (success_on_attempt_k_stops_retrying world_500_then_200 sample_cfg
           sample_log "0xabc" (PAtom (AInt 100)) sample_args started_heap 1).
  - reflexivity.
  - reflexivity.
  - reflexivity.
  - unfold max_retries. lia.
  - intros i Hi. assert (i = 0%nat) as -> by lia. reflexivity.
  - reflexivity.
Defined.



(** ** Malformed logs *)

(** C2 as stated fails: this log lacks ['args'], and processing it raises
    [KeyError] at the first log line, before the ['args'] check. *)
Lemma log_without_args_may_raise :
  log_without_tx !! "args" = None
  ∧ _process_event world_500 sample_cfg log_without_tx started_heap
    = (Raise (KeyError "transactionHash"), started_heap).
Proof. split; reflexivity. Qed.

(** C2, amended: for every raw log that lacks ['args'] and carries a
    ['transactionHash'] whose [.hex()] can be taken, [_process_event] logs
    the event and the warning and returns normally: no delivery call, no
    request, no exception, and the loop over the batch goes on with the
    next log. *)
Theorem log_without_args_is_skipped
    (w : world) (cfg : config) (event : pydict) (tx : string)
    (rest : list pydict) (h : heap) :
  event !! "args" = None →
  event !! "transactionHash" = Some (PHexBytes tx) →
  let new := [ELog INFO (MsgNewEvent (event_name cfg) tx);
              ELog WARNING (MsgMissingArgs event)] in
  _process_event w cfg event h = (Ok tt, extend 0 new h)
  ∧ count is_relay_call new = 0%nat
  ∧ count is_post new = 0%nat
  ∧ process_all w cfg (event :: rest) h
    = process_all w cfg rest (extend 0 new h).
Proof.
  intros Ha Htx new.
  assert (_process_event w cfg event h = (Ok tt, extend 0 new h)) as Hev.
  { unfold _process_event, hex. unfold_monad. rewrite Htx, Ha. simpl.
    subst new. by canon_heap. }
  repeat split; try done.
  cbn [process_all]. unfold bind at 1. by rewrite Hev.
Qed.

Lemma log_without_args_is_skipped_witness :
  let new := [ELog INFO (MsgNewEvent (event_name sample_cfg) "0xabc");
              ELog WARNING (MsgMissingArgs log_without_args)] in
  _process_event world_500 sample_cfg log_without_args started_heap
  = (Ok tt, extend 0 new started_heap)
  ∧ count is_relay_call new = 0%nat
  ∧ count is_post new = 0%nat
  ∧ process_all world_500 sample_cfg [log_without_args; sample_log]
      started_heap
    = process_all world_500 sample_cfg [sample_log]
        (extend 0 new started_heap).
Proof.
  apply (log_without_args_is_skipped world_500 sample_cfg log_without_args
           "0xabc" [sample_log] started_heap).
  - reflexivity.
  - reflexivity.
Defined.

(** C10: for every raw log that lacks ['transactionHash'], or that has
    ['args'] and lacks ['blockNumber'], [_process_event] raises an exception
    of class [Exception] without any delivery call; with the hash missing it
    is [KeyError('transactionHash')], raised before anything is logged, and
    with a hash and no block number it is [KeyError('blockNumber')].  The
    exception leaves the loop over the batch, whose remaining logs are not
    processed, and the turn of [run] takes the [except Exception] path. *)
Theorem missing_key_escapes_to_recovery
    (w : world) (cfg : config) (event : pydict) (rest : list pydict)
    (f : handle) (pi : Z) (h : heap) :
  lacks_required_key event →
  event_filter h = Some f →
  poll_outcome w (polls_made h) f = Ok (event :: rest) →
  ∃ e h',
    _process_event w cfg event (polled f h) = (Raise e, h')
    ∧ is_Exception e = true
    ∧ (event !! "transactionHash" = None →
       e = KeyError "transactionHash" ∧ h' = polled f h)
    ∧ (∀ tx, event !! "transactionHash" = Some (PHexBytes tx) →
             e = KeyError "blockNumber")
    ∧ count is_relay_call (trace h') = count is_relay_call (trace h)
    ∧ posts_made h' = posts_made h
    ∧ process_all w cfg (event :: rest) (polled f h) = (Raise e, h')
    ∧ run_iteration w cfg pi h = (recover w cfg e;; ret Continue) h'.
Proof.
  intros Hlack Hf Hp.
  assert (∃ e h',
    _process_event w cfg event (polled f h) = (Raise e, h')
    ∧ is_Exception e = true
    ∧ (event !! "transactionHash" = None →
       e = KeyError "transactionHash" ∧ h' = polled f h)
    ∧ (∀ tx, event !! "transactionHash" = Some (PHexBytes tx) →
             e = KeyError "blockNumber")
    ∧ count is_relay_call (trace h') = count is_relay_call (trace h)
    ∧ posts_made h' = posts_made h) as (e & h' & Hev & He & H1 & H2 & H3 & H4).
  { unfold _process_event, hex. unfold_monad.
    destruct (event !! "transactionHash") as [v|] eqn:Htx.
    - destruct Hlack as [? | [[x Hx] Hb]]; [congruence |].
      rewrite Hx, Hb. destruct v as [a|tx|d]; simpl.
      + eexists _, _. repeat split; try done; simpl;
          rewrite !count_app; simpl; lia.
      + eexists _, _. repeat split; try done; simpl;
          rewrite !count_app; simpl; lia.
      + eexists _, _. repeat split; try done; simpl;
          rewrite !count_app; simpl; lia.
    - eexists _, _. repeat split; try done; simpl;
        rewrite !count_app; simpl; lia. }
  exists e, h'.
  assert (process_all w cfg (event :: rest) (polled f h) = (Raise e, h'))
    as Hall.
  { cbn [process_all]. unfold bind at 1. by rewrite Hev. }
  repeat split; try done.
  - by apply H1.
  - by apply H1.
  - by apply (run_iteration_batch_raises w cfg f (event :: rest)).
Qed.

Lemma missing_key_escapes_to_recovery_witness :
  ∃ e h',
    _process_event (world_with (λ _, http 200) [log_without_tx; sample_log])
      sample_cfg log_without_tx (polled 0 started_heap) = (Raise e, h')
    ∧ is_Exception e = true
    ∧ (log_without_tx !! "transactionHash" = None →
       e = KeyError "transactionHash" ∧ h' = polled 0 started_heap)
    ∧ (∀ tx, log_without_tx !! "transactionHash" = Some (PHexBytes tx) →
             e = KeyError "blockNumber")
    ∧ count is_relay_call (trace h')
      = count is_relay_call (trace started_heap)
    ∧ posts_made h' = posts_made started_heap
    ∧ process_all (world_with (λ _, http 200) [log_without_tx; sample_log])
        sample_cfg [log_without_tx; sample_log] (polled 0 started_heap)
      = (Raise e, h')
    ∧ run_iteration (world_with (λ _, http 200) [log_without_tx; sample_log])
        sample_cfg 5 started_heap
      = (recover (world_with (λ _, http 200) [log_without_tx; sample_log])
           sample_cfg e;; ret Continue) h'.
Proof.
  apply (missing_key_escapes_to_recovery
           (world_with (λ _, http 200) [log_without_tx; sample_log])
           sample_cfg log_without_tx [sample_log] 0%nat 5 started_heap).
  - left. reflexivity.
  - reflexivity.
  - reflexivity.
Defined.

(** ** The amount on the wire *)

Lemma is_digit_pretty_N_char x : is_digit (pretty_N_char x) = true.
Proof. unfold pretty_N_char. by repeat case_match. Qed.

Lemma all_digits_pretty_N_go x s :
  all_digits s = true → all_digits (pretty_N_go x s) = true.
Proof.
  revert s. induction (N.lt_wf_0 x) as [x _ IH]; intros s Hs.
  assert (x = 0 ∨ 0 < x)%N as [->|Hx] by lia.
  - by rewrite pretty_N_go_0.
  - rewrite pretty_N_go_step by done. apply IH.
    + by apply N.div_lt.
    + simpl. by rewrite is_digit_pretty_N_char, Hs.
Qed.

Lemma nonempty_pretty_N_go x s :
  nonempty s = true → nonempty (pretty_N_go x s) = true.
Proof.
  revert s. induction (N.lt_wf_0 x) as [x _ IH]; intros s Hs.
  assert (x = 0 ∨ 0 < x)%N as [->|Hx] by lia.
  - by rewrite pretty_N_go_0.
  - rewrite pretty_N_go_step by done. apply IH; [by apply N.div_lt | done].
Qed.

Lemma pretty_positive_digits (p : positive) :
  nonempty (pretty p) = true ∧ all_digits (pretty p) = true.
Proof.
  unfold pretty, pretty_positive, pretty, pretty_N.
  case_decide; [done |]. split.
  - rewrite pretty_N_go_step by lia. by apply nonempty_pretty_N_go.
  - by apply all_digits_pretty_N_go.
Qed.

Lemma digits_are_decimal s :
  nonempty s = true → all_digits s = true → is_decimal s = true.
Proof.
  intros Hn Hd. destruct s as [|c s]; [done |].
  unfold is_decimal. rewrite Hn, Hd.
  simpl in Hd. apply andb_true_iff in Hd as [Hc _].
  destruct c as [[] [] [] [] [] [] [] []]; try done.
Qed.

(** [str] of a Python integer is a decimal string. *)
Lemma py_str_int_decimal (n : Z) : is_decimal (py_str (AInt n)) = true.
Proof.
  unfold py_str, pretty, pretty_Z. destruct n as [|p|p].
  - reflexivity.
  - destruct (pretty_positive_digits p). by apply digits_are_decimal.
  - destruct (pretty_positive_digits p) as [Hn Hd].
    change (is_decimal (String "-" (pretty p)) = true).
    unfold is_decimal. by rewrite Hn, Hd.
Qed.

(** The amount handed to the oracle is always a Python string, whatever
    [args] holds, and the decimal rendering when [args] holds an integer. *)
Lemma amount_is_a_string cfg tx block args :
  processed_data_of cfg tx block args !! "amount"
  = Some (PAtom (AStr (py_str (dict_get args "amount")))).
Proof. unfold processed_data_of. by simplify_map_eq. Qed.

Lemma int_amount_is_decimal cfg tx block (args : gmap string atom) n :
  args !! "amount" = Some (AInt n) →
  ∃ s, processed_data_of cfg tx block args !! "amount"
       = Some (PAtom (AStr s))
       ∧ is_decimal s = true.
Proof.
  intros Hn. exists (py_str (AInt n)). split.
  - rewrite amount_is_a_string. unfold dict_get. by rewrite Hn.
  - apply py_str_int_decimal.
Qed.

(** The scenario of the specification: the payload posted for the sample
    log carries the amount as the string "1000000000000000000", the
    destination chain 2 and the source chain 1. *)
Lemma scenario_payload :
  ∃ p, posted_payloads
         (trace (snd (_process_event (world_with (λ _, http 200) [])
                        sample_cfg sample_log started_heap))) = [p]
       ∧ p !! "amount" = Some (PAtom (AStr "1000000000000000000"))
       ∧ p !! "destination_chain_id" = Some (PAtom (AInt 2))
       ∧ p !! "source_chain_id" = Some (PAtom (AInt 1)).
Proof. eexists. split; [vm_compute; reflexivity |]. by vm_compute. Qed.

(** C6, evaluated on the code: for a log whose ['args'] has no ['amount'],
    [event_args.get('amount')] is [None] and [str(None)] is posted: the
    payload carries the amount "None", which is a string but not a decimal
    string. *)
Theorem missing_amount_is_posted_as_None :
  ∃ p, posted_payloads
         (trace (snd (_process_event (world_with (λ _, http 200) [])
                        sample_cfg log_without_amount started_heap))) = [p]
       ∧ p !! "amount" = Some (PAtom (AStr "None"))
       ∧ is_decimal "None" = false.
Proof. eexists. split; [vm_compute; reflexivity |]. by vm_compute. Qed.

(** ** The oracle's verdict *)

(** C3, evaluated on the code: one request is made, and the 2xx answer
    [no_content] is reported as a failure, because [response.json()], called
    for the success log line inside the [try], raises a [RequestException];
    a 300 answer with a JSON body, which [raise_for_status] lets through, is
    reported as a success; and an [event_data] without its keys raises
    [KeyError] with no request made. *)
Theorem relay_event_verdict_is_not_2xx :
  let d := processed_data_of sample_cfg "0xabc" (PAtom (AInt 100))
             sample_args in
  let r204 := relay_event (world_with (λ _, no_content) []) sample_cfg d
                started_heap in
  let r300 := relay_event (world_with (λ _, http 300) []) sample_cfg d
                started_heap in
  let rkey := relay_event (world_with (λ _, http 200) []) sample_cfg ∅
                started_heap in
  (fst r204 = Ok false ∧ count is_post (trace (snd r204)) = 1%nat)
  ∧ (fst r300 = Ok true ∧ count is_post (trace (snd r300)) = 1%nat)
  ∧ (fst rkey = Raise (KeyError "transactionHash")
     ∧ count is_post (trace (snd rkey)) = 0%nat).
Proof. by vm_compute. Qed.

(** ** The cursor *)

Lemma cursor_blind_ret {A} (a : A) : cursor_blind (ret a).
Proof. by intros c h. Qed.

Lemma cursor_blind_raise {A} (e : exn) : cursor_blind (@raise A e).
Proof. by intros c h. Qed.

Lemma cursor_blind_modify (f : heap → heap) :
  (∀ c h, f (set_last_processed_block c h)
          = set_last_processed_block c (f h)) →
  cursor_blind (modify f).
Proof. intros Hf c h. unfold modify. simpl. by rewrite Hf. Qed.

Lemma cursor_blind_gets {A} (f : heap → A) :
  (∀ c h, f (set_last_processed_block c h) = f h) →
  cursor_blind (gets f).
Proof. intros Hf c h. unfold gets. simpl. by rewrite Hf. Qed.

Lemma cursor_blind_bind {A B} (m : M A) (k : A → M B) :
  cursor_blind m → (∀ a, cursor_blind (k a)) → cursor_blind (bind m k).
Proof.
  intros Hm Hk c h. unfold bind. rewrite Hm.
  destruct (m h) as [[a|e] h']; simpl; [apply Hk | done].
Qed.

Lemma cursor_blind_try_except {A} (m : M A) class handler :
  cursor_blind m → (∀ e, cursor_blind (handler e)) →
  cursor_blind (try_except m class handler).
Proof.
  intros Hm Hh c h. unfold try_except. rewrite Hm.
  destruct (m h) as [[a|e] h']; simpl; [done |].
  destruct (class e); [apply Hh | done].
Qed.

Lemma cursor_blind_try_except2 {A} (m : M A) c1 h1 c2 h2 :
  cursor_blind m → (∀ e, cursor_blind (h1 e)) → (∀ e, cursor_blind (h2 e)) →
  cursor_blind (try_except2 m c1 h1 c2 h2).
Proof.
  intros Hm H1 H2 c h. unfold try_except2. rewrite Hm.
  destruct (m h) as [[a|e] h']; simpl; [done |].
  destruct (c1 e); [apply H1 |]. destruct (c2 e); [apply H2 | done].
Qed.

Create HintDb blind.

(** Goes through a computation built from the monad's operations. *)
Ltac blind_step :=
  match goal with
  | |- ∀ _, _ => intros ?; cbv beta
  | |- cursor_blind (bind _ _) => apply cursor_blind_bind
  | |- cursor_blind (try_except _ _ _) => apply cursor_blind_try_except
  | |- cursor_blind (try_except2 _ _ _ _ _) => apply cursor_blind_try_except2
  | |- cursor_blind (ret _) => apply cursor_blind_ret
  | |- cursor_blind (raise _) => apply cursor_blind_raise
  | |- cursor_blind (modify _) => apply cursor_blind_modify; reflexivity
  | |- cursor_blind (gets _) => apply cursor_blind_gets; reflexivity
  | |- cursor_blind (match ?x with _ => _ end) => destruct x
  | |- cursor_blind _ => solve [auto with blind]
  end.

Ltac blind := repeat blind_step.

Lemma cursor_blind_log lvl m : cursor_blind (log lvl m).
Proof. unfold log. blind. Qed.

Lemma cursor_blind_sleep n : cursor_blind (sleep n).
Proof. unfold sleep. blind. Qed.

Lemma cursor_blind_getitem {V} (d : gmap string V) k :
  cursor_blind (getitem d k).
Proof. unfold getitem. blind. Qed.

#[local] Hint Resolve cursor_blind_log cursor_blind_sleep
  cursor_blind_getitem : blind.

Section Cursor.

Context (w : world) (cfg : config).

Lemma cursor_blind_relay_event d : cursor_blind (relay_event w cfg d).
Proof.
  unfold relay_event, requests_post, raise_for_status, response_json. blind.
Qed.

Lemma cursor_blind__connect : cursor_blind (_connect w cfg).
Proof. unfold _connect. blind. Qed.

Lemma cursor_blind__create_event_filter :
  cursor_blind (_create_event_filter w cfg).
Proof. unfold _create_event_filter. blind. Qed.

#[local] Hint Resolve cursor_blind_relay_event cursor_blind__connect
  cursor_blind__create_event_filter : blind.

Lemma cursor_blind_relay_with_retries attempts d :
  cursor_blind (relay_with_retries w cfg attempts d).
Proof. induction attempts as [|a rest IH]; cbn [relay_with_retries]; blind. Qed.

#[local] Hint Resolve cursor_blind_relay_with_retries : blind.

Lemma cursor_blind__process_event event :
  cursor_blind (_process_event w cfg event).
Proof. unfold _process_event, hex, get. blind. Qed.

#[local] Hint Resolve cursor_blind__process_event : blind.

Lemma cursor_blind_process_all logs : cursor_blind (process_all w cfg logs).
Proof. induction logs as [|ev rest IH]; cbn [process_all]; blind. Qed.

Lemma cursor_blind_get_new_entries : cursor_blind (get_new_entries w).
Proof. unfold get_new_entries. blind. Qed.

Lemma cursor_blind__reconnect_and_recreate_filter :
  cursor_blind (_reconnect_and_recreate_filter w cfg).
Proof. unfold _reconnect_and_recreate_filter. blind. Qed.

#[local] Hint Resolve cursor_blind_process_all cursor_blind_get_new_entries
  cursor_blind__reconnect_and_recreate_filter : blind.

Lemma cursor_blind_run_iteration pi : cursor_blind (run_iteration w cfg pi).
Proof. unfold run_iteration, poll_and_process, recover. blind. Qed.

#[local] Hint Resolve cursor_blind_run_iteration : blind.

Lemma cursor_blind_run_loop fuel pi : cursor_blind (run_loop w cfg fuel pi).
Proof. induction fuel as [|fuel IH]; cbn [run_loop]; blind. Qed.

#[local] Hint Resolve cursor_blind_run_loop : blind.

Lemma cursor_blind_run fuel pi : cursor_blind (run w cfg fuel pi).
Proof. unfold run. blind. Qed.

(** The constructor stores the latest block height minus one. *)
Lemma init_sets_cursor h h0 :
  EventListenerService_init w cfg h = (Ok tt, h0) →
  ∃ b, block_number_outcome w (heights_read h) = Ok b
       ∧ last_processed_block h0 = Some (b - 1).
Proof.
  unfold EventListenerService_init, _create_event_filter,
    get_latest_block_number.
  unfold_monad. intros Hinit.
  destruct (contract h); [| done].
  case_bool_decide; simpl in Hinit; [| done].
  destruct (create_filter_outcome w (filters_made h)) as [f|e]; simpl in Hinit.
  - destruct (web3 h); simpl in Hinit; [| done].
    destruct (block_number_outcome w (heights_read h)) as [b|e];
      simpl in Hinit; [| done].
    exists b. split; [done |]. by inversion Hinit.
  - by destruct (is_AttributeError e).
Qed.

End Cursor.

Lemma set_own_cursor h : set_last_processed_block (last_processed_block h) h = h.
Proof. by destruct h. Qed.

(** C8: the constructor sets the cursor to the latest block height minus
    one, and [run] is blind to it: from two heaps that differ only in the
    cursor it returns the same status after the same trace (the same polls,
    the same delivery calls and requests, in the same order), and it leaves
    the cursor as it found it. *)
Theorem cursor_is_set_once_and_never_read
    (w : world) (cfg : config) (fuel : nat) (pi : Z) (h h0 : heap)
    (c : option Z) :
  EventListenerService_init w cfg h = (Ok tt, h0) →
  (∃ b, block_number_outcome w (heights_read h) = Ok b
        ∧ last_processed_block h0 = Some (b - 1))
  ∧ let r := run w cfg fuel pi h0 in
    let r' := run w cfg fuel pi (set_last_processed_block c h0) in
    fst r' = fst r
    ∧ trace (snd r') = trace (snd r)
    ∧ snd r' = set_last_processed_block c (snd r)
    ∧ last_processed_block (snd r) = last_processed_block h0.
Proof.
  intros Hinit. split; [by apply (init_sets_cursor w cfg h) |].
  cbn zeta. rewrite (cursor_blind_run w cfg fuel pi c h0). simpl.
  repeat split.
  rewrite <- (set_own_cursor h0) at 1.
  by rewrite (cursor_blind_run w cfg fuel pi (last_processed_block h0) h0).
Qed.

Lemma cursor_is_set_once_and_never_read_witness :
  (∃ b, block_number_outcome world_500 (heights_read connected_heap) = Ok b
        ∧ last_processed_block constructed_heap = Some (b - 1))
  ∧ let r := run world_500 sample_cfg 2 5 constructed_heap in
    let r' := run world_500 sample_cfg 2 5
                (set_last_processed_block (Some 7) constructed_heap) in
    fst r' = fst r
    ∧ trace (snd r') = trace (snd r)
    ∧ snd r' = set_last_processed_block (Some 7) (snd r)
    ∧ last_processed_block (snd r) = last_processed_block constructed_heap.
Proof.
  apply (cursor_is_set_once_and_never_read world_500 sample_cfg 2 5
           connected_heap constructed_heap (Some 7)).
  vm_compute. reflexivity.
Defined.

(** ** Recovery *)

Section Recovery.

Context (w : world) (cfg : config).

Ltac close_reconnect :=
  eexists _, _; split; [reflexivity |];
  split; [simpl; rewrite <- ?app_assoc; simpl; reflexivity |].

(** [_reconnect_and_recreate_filter] always returns: it starts with the
    connection attempt and either installs a new filter or logs why not. *)
Lemma reconnect_outcome h :
  ordinary_failures w →
  ∃ after h2,
    _reconnect_and_recreate_filter w cfg h = (Ok tt, h2)
    ∧ trace h2 = trace h ++ EConnect (rpc_url cfg) :: after
    ∧ reconnected w h h2 after.
Proof.
  intros [Hconn Hfilt].
  unfold _reconnect_and_recreate_filter, _connect, _create_event_filter,
    reconnected.
  unfold_monad. simpl.
  destruct (connect_outcome w (connects_made h)) as [w3 c|w3|w3 e] eqn:Hc;
    simpl.
  - case_bool_decide; simpl.
    + destruct (create_filter_outcome w (filters_made h)) as [f|e] eqn:Hf;
        simpl.
      * close_reconnect. left. exists f. repeat split.
      * pose proof (Hfilt _ _ Hf) as He.
        destruct (is_AttributeError e); simpl; rewrite He; simpl;
          close_reconnect; right; exists e; repeat split; done.
    + close_reconnect. right. exists (AttributeError (event_name cfg)).
      repeat split.
  - close_reconnect. right.
    exists (ConnectionError "Could not establish connection"). repeat split.
  - rewrite (Hconn _ _ _ Hc). simpl. close_reconnect. right.
    exists (ConnectionError "Could not establish connection"). repeat split.
Qed.

End Recovery.

(** C5 as stated fails: in [world_outage] the first turn of the loop raises
    in the poll, waits 15, and the reconnection throws; the next turn does
    not repeat the delay and the reconnection, it polls the old filter and
    sleeps the poll interval. *)
Lemma failed_reconnection_is_not_retried_next_turn :
  let turn1 := run_iteration world_outage sample_cfg 5 started_heap in
  let turn2 := run_iteration world_outage sample_cfg 5 (snd turn1) in
  fst turn1 = Ok Continue
  ∧ trace (snd turn1)
    = [EPoll 0; ELog CRITICAL (MsgUnexpected (OtherException "RPCError"));
       ELog INFO MsgReconnecting; ESleep 15;
       EConnect "http://node.example";
       ELog ERROR (MsgConnectError
                     (ConnectionError "Failed to connect to blockchain node"));
       ELog ERROR (MsgReconnectFailed
                     (ConnectionError "Could not establish connection"))]
  ∧ fst turn2 = Ok Continue
  ∧ drop (length (trace (snd turn1))) (trace (snd turn2))
    = [EPoll 0; ELog DEBUG MsgNoNewEvents; ESleep 5].
Proof. by vm_compute. Qed.

Lemma run_iteration_uninterrupted (w : world) (cfg : config) (pi : Z)
    (h : heap) :
  run_iteration_under w cfg None pi h = run_iteration w cfg pi h.
Proof.
  unfold run_iteration_under, run_iteration, try_except2.
  destruct (bind _ _ h) as [[c|e] h1]; [done |].
  destruct (is_KeyboardInterrupt e); [done |].
  destruct (is_Exception e); [| done].
  unfold recover_under, recover, interruptible_sleep. unfold_monad. simpl.
  reflexivity.
Qed.

(** C5, amended: an exception of class [Exception] that escapes the
    poll/process cycle is caught at the loop boundary: the turn logs it and
    starts the 15-unit delay.  If the delay completes, the turn attempts the
    connection and, when that succeeded and the event is in the ABI,
    recreates the filter: on success the connector holds the new provider
    and contract, the service holds the new filter, and the turn ends
    normally; when the connection or the filter recreation throws an
    [Exception], the failure is logged, the old filter is kept, and the turn
    ends normally as well.  The loop then goes on to its next turn, which is
    an ordinary poll: when that poll/process cycle raises nothing, the turn
    is just that cycle, with no delay and no reconnection.  What the
    recovery does not absorb ends [run]: an exception raised during the
    delay (a [KeyboardInterrupt]), and an exception outside [Exception]
    raised by the connection or by the filter recreation. *)
Theorem exception_in_cycle_is_recovered
    (w : world) (cfg : config) (pi : Z) (signal : option exn) (h h1 : heap)
    (e : exn) :
  poll_and_process w cfg pi h = (Raise e, h1) →
  is_Exception e = true →
  let r := run_iteration_under w cfg signal pi h in
  let announced :=
    [ELog CRITICAL (MsgUnexpected e); ELog INFO MsgReconnecting;
     ESleep reconnect_delay] in
  (∀ s, signal = Some s →
        fst r = Raise s ∧ trace (snd r) = trace h1 ++ announced)
  ∧ (signal = None →
     r = run_iteration w cfg pi h
     ∧ (∀ fuel, fst r = Ok Continue →
                run_loop w cfg (S fuel) pi h = run_loop w cfg fuel pi (snd r))
     ∧ (∀ w3 c f',
          connect_outcome w (connects_made h1) = ConnectUp w3 c →
          event_name cfg ∈ contract_abi cfg →
          create_filter_outcome w (filters_made h1) = Ok f' →
          fst r = Ok Continue
          ∧ trace (snd r)
            = trace h1 ++ announced
              ++ [EConnect (rpc_url cfg);
                  ELog INFO (MsgConnected (contract_address cfg));
                  ECreateFilter (event_name cfg); ELog INFO MsgReconnected]
          ∧ web3 (snd r) = Some w3
          ∧ contract (snd r) = Some c
          ∧ event_filter (snd r) = Some f')
     ∧ (∀ w3 c e',
          connect_outcome w (connects_made h1) = ConnectUp w3 c →
          event_name cfg ∈ contract_abi cfg →
          create_filter_outcome w (filters_made h1) = Raise e' →
          if is_Exception e'
          then fst r = Ok Continue
               ∧ event_filter (snd r) = event_filter h1
               ∧ trace (snd r)
                 = trace h1 ++ announced
                   ++ [EConnect (rpc_url cfg);
                       ELog INFO (MsgConnected (contract_address cfg));
                       ECreateFilter (event_name cfg)]
                   ++ (if is_AttributeError e'
                       then [ELog ERROR (MsgEventNotFound (event_name cfg))]
                       else [])
                   ++ [ELog ERROR (MsgReconnectFailed e')]
          else fst r = Raise e')
     ∧ (∀ w3 c,
          connect_outcome w (connects_made h1) = ConnectUp w3 c →
          event_name cfg ∉ contract_abi cfg →
          fst r = Ok Continue
          ∧ event_filter (snd r) = event_filter h1
          ∧ trace (snd r)
            = trace h1 ++ announced
              ++ [EConnect (rpc_url cfg);
                  ELog INFO (MsgConnected (contract_address cfg));
                  ELog ERROR (MsgEventNotFound (event_name cfg));
                  ELog ERROR
                    (MsgReconnectFailed (AttributeError (event_name cfg)))])
     ∧ (∀ w3 cause,
          connect_failure (connect_outcome w (connects_made h1))
          = Some (w3, cause) →
          if is_Exception cause
          then fst r = Ok Continue
               ∧ event_filter (snd r) = event_filter h1
               ∧ trace (snd r)
                 = trace h1 ++ announced
                   ++ [EConnect (rpc_url cfg);
                       ELog ERROR (MsgConnectError cause);
                       ELog ERROR
                         (MsgReconnectFailed
                            (ConnectionError
                               "Could not establish connection"))]
          else fst r = Raise cause))
  ∧ (∀ signal' h3,
       poll_and_process w cfg pi (snd r) = (Ok tt, h3) →
       run_iteration_under w cfg signal' pi (snd r) = (Ok Continue, h3)).
Proof.
  intros Hcycle He r announced.
  assert (r = (recover_under w cfg signal e;; ret Continue) h1) as Hr.
  { unfold r, run_iteration_under, try_except2. unfold bind at 1.
    rewrite Hcycle.
    assert (is_KeyboardInterrupt e = false) as -> by by destruct e.
    by rewrite He. }
  subst announced. split_and!.
  - intros s ->. rewrite Hr. unfold recover_under, interruptible_sleep.
    unfold_monad. simpl. split; [done | by rewrite <- !app_assoc].
  - intros ->. split_and!.
    + apply run_iteration_uninterrupted.
    + intros fuel Hc. cbn [run_loop]. unfold bind at 1.
      rewrite <- run_iteration_uninterrupted.
      change (run_iteration_under w cfg None pi h) with r.
      destruct r as [[[|]|x] h2]; simpl in Hc; by inversion Hc.
    + intros w3 c f' Hup Habi Hf. rewrite Hr.
      unfold recover_under, interruptible_sleep,
        _reconnect_and_recreate_filter, _connect, _create_event_filter.
      unfold_monad. simpl. rewrite Hup. simpl.
      rewrite bool_decide_eq_true_2 by done. simpl. rewrite Hf. simpl.
      split_and!; try done. by rewrite <- !app_assoc.
    + intros w3 c e' Hup Habi Hf. rewrite Hr.
      unfold recover_under, interruptible_sleep,
        _reconnect_and_recreate_filter, _connect, _create_event_filter.
      unfold_monad. simpl. rewrite Hup. simpl.
      rewrite bool_decide_eq_true_2 by done. simpl. rewrite Hf. simpl.
      destruct (is_AttributeError e'); simpl;
        destruct (is_Exception e'); simpl; try done;
        split_and!; try done; by rewrite <- !app_assoc.
    + intros w3 c Hup Habi. rewrite Hr.
      unfold recover_under, interruptible_sleep,
        _reconnect_and_recreate_filter, _connect, _create_event_filter.
      unfold_monad. simpl. rewrite Hup. simpl.
      rewrite bool_decide_eq_false_2 by done. simpl.
      split_and!; try done. by rewrite <- !app_assoc.
    + intros w3 cause Hfail. rewrite Hr.
      unfold recover_under, interruptible_sleep,
        _reconnect_and_recreate_filter, _connect, _create_event_filter.
      unfold_monad. simpl.
      destruct (connect_outcome w (connects_made h1)) as [? ?|w3'|w3' e'];
        simpl in Hfail; inversion Hfail; subst; simpl.
      * split_and!; try done. by rewrite <- !app_assoc.
      * destruct (is_Exception cause) eqn:Hc; simpl; rewrite ?Hc; simpl;
          [| done].
        split_and!; try done. by rewrite <- !app_assoc.
  - intros signal' h3 Hok. unfold run_iteration_under, try_except2.
    unfold bind at 1. by rewrite Hok.
Qed.

Lemma world_outage_ordinary : ordinary_failures world_outage.
Proof. split; intros; discriminate. Qed.

Lemma exception_in_cycle_is_recovered_witness :
  let r := run_iteration_under world_blip bridge_cfg None 5 started_heap in
  fst r = Ok Continue
  ∧ trace (snd r)
    = trace (polled 0 started_heap)
      ++ [ELog CRITICAL (MsgUnexpected (OtherException "RPCError"));
          ELog INFO MsgReconnecting; ESleep reconnect_delay]
      ++ [EConnect (rpc_url bridge_cfg);
          ELog INFO (MsgConnected (contract_address bridge_cfg));
          ECreateFilter (event_name bridge_cfg); ELog INFO MsgReconnected]
  ∧ web3 (snd r) = Some 1%nat
  ∧ contract (snd r) = Some 1%nat
  ∧ event_filter (snd r) = Some 7%nat.
Proof.
  destruct (exception_in_cycle_is_recovered world_blip bridge_cfg 5 None
              started_heap (polled 0 started_heap)
              (OtherException "RPCError")) as (_ & Hdone & _).
  - reflexivity.
  - reflexivity.
  - destruct (Hdone eq_refl) as (_ & _ & Hup & _).
    apply (Hup 1%nat 1%nat 7%nat).
    + reflexivity.
    + constructor.
    + reflexivity.
Defined.

(** In [world_blip] the recovery succeeds: the turn ends normally with
    provider 1, contract 1 and the new filter 7, and the next turn polls
    filter 7. *)
Lemma recovery_installs_new_filter :
  let turn1 := run_iteration world_blip bridge_cfg 5 started_heap in
  let turn2 := run_iteration world_blip bridge_cfg 5 (snd turn1) in
  fst turn1 = Ok Continue
  ∧ web3 (snd turn1) = Some 1%nat
  ∧ contract (snd turn1) = Some 1%nat
  ∧ event_filter (snd turn1) = Some 7%nat
  ∧ drop (length (trace (snd turn1))) (trace (snd turn2))
    = [EPoll 7; ELog DEBUG MsgNoNewEvents; ESleep 5].
Proof. by vm_compute. Qed.

(** A [KeyboardInterrupt] delivered during the 15-unit delay leaves the
    turn, and [run] with it: nothing is reconnected and no shutdown line is
    logged. *)
Lemma interrupt_during_delay_leaves_run :
  run_iteration_under world_blip bridge_cfg (Some KeyboardInterrupt) 5
    started_heap
  = (Raise KeyboardInterrupt,
     emit (ESleep 15)
       (emit (ELog INFO MsgReconnecting)
          (emit (ELog CRITICAL (MsgUnexpected (OtherException "RPCError")))
             (polled 0 started_heap)))).
Proof. reflexivity. Qed.

(** ** Startup *)

(** C9 as stated fails: [environ_valid] holds the four variables, with a
    well-formed contract address, and no other variable, so that no contract
    ABI, source chain id, poll interval, retry count or reconnection delay
    comes from outside; [main] starts the service all the same.  With the
    node up it connects, creates the filter, reads the block height and
    polls at each turn, sleeping the 5 of the code between polls and backing
    off 1, 2, 4 on the 3 attempts of the code. *)
Lemma service_starts_with_four_variables_only :
  dom environ_valid = list_to_set required_vars
  ∧ let r := main world_500 environ_valid 2 fresh_heap in
    fst r = Ok tt
    ∧ count is_connect (trace (snd r)) = 1%nat
    ∧ count is_create_filter (trace (snd r)) = 1%nat
    ∧ count is_poll (trace (snd r)) = 2%nat
    ∧ count is_post (trace (snd r)) = 6%nat
    ∧ sleeps (trace (snd r)) = [1; 2; 4; 5; 1; 2; 4; 5].
Proof.
  split.
  - unfold environ_valid, required_vars.
    rewrite !dom_insert_L, dom_singleton_L. set_solver.
  - by vm_compute.
Qed.

(** C9, amended: [main] reads the four variables of [required_vars] and
    nothing else from the environment; when any of the four is unset or
    empty it logs one error and returns without connecting, and when all
    four are set it constructs and runs the service with the ABI, the
    event name, the source chain id 1 and the poll interval 5 written in
    the code. *)
Theorem startup_validates_four_variables
    (w : world) (environ environ' : gmap string string) (fuel : nat)
    (h : heap) :
  Forall (λ v, environ' !! v = environ !! v) required_vars →
  main w environ' fuel h = main w environ fuel h
  ∧ (Exists (λ v, truthy (environ !! v) = false) required_vars →
     main w environ fuel h = (Ok tt, emit (ELog ERROR MsgMissingEnv) h))
  ∧ (Forall (λ v, truthy (environ !! v) = true) required_vars →
     main w environ fuel h
     = try_except2
         (ChainConnector_init w (main_config environ);;
          EventListenerService_init w (main_config environ);;
          run w (main_config environ) fuel default_poll_interval;;
          ret tt)
         is_ConnectionError (λ e, log CRITICAL (MsgInitConnectionError e))
         is_Exception (λ e, log CRITICAL (MsgFatalSetup e)) h).
Proof.
  intros Hsame. rewrite Forall_forall in Hsame. split; [| split].
  - unfold main.
    rewrite !Hsame by (unfold required_vars; set_solver). reflexivity.
  - intros Hex. apply Exists_exists in Hex as (v & Hv & Hmiss).
    unfold main, py_all. unfold required_vars in Hv.
    repeat (apply elem_of_cons in Hv as [-> | Hv]);
      [| | | | by apply elem_of_nil in Hv];
      rewrite Hmiss; simpl; rewrite ?andb_false_r; reflexivity.
  - intros Hall. rewrite Forall_forall in Hall. unfold main, py_all. simpl.
    rewrite !Hall by (unfold required_vars; set_solver). reflexivity.
Qed.

Lemma startup_validates_four_variables_witness :
  main world_500 environ_valid_more 2 fresh_heap
  = main world_500 environ_valid 2 fresh_heap
  ∧ (Exists (λ v, truthy (environ_valid !! v) = false) required_vars →
     main world_500 environ_valid 2 fresh_heap
     = (Ok tt, emit (ELog ERROR MsgMissingEnv) fresh_heap))
  ∧ (Forall (λ v, truthy (environ_valid !! v) = true) required_vars →
     main world_500 environ_valid 2 fresh_heap
     = try_except2
         (ChainConnector_init world_500 (main_config environ_valid);;
          EventListenerService_init world_500 (main_config environ_valid);;
          run world_500 (main_config environ_valid) 2 default_poll_interval;;
          ret tt)
         is_ConnectionError (λ e, log CRITICAL (MsgInitConnectionError e))
         is_Exception (λ e, log CRITICAL (MsgFatalSetup e)) fresh_heap).
Proof.
  apply (startup_validates_four_variables world_500 environ_valid
           environ_valid_more 2 fresh_heap).
  repeat constructor.
Defined.

Lemma startup_without_api_key :
  main world_500 environ_no_key 2 fresh_heap
  = (Ok tt, emit (ELog ERROR MsgMissingEnv) fresh_heap).
Proof. reflexivity. Qed.

(** ** More on the oracle *)

Lemma posted_payloads_app t u :
  posted_payloads (t ++ u) = posted_payloads t ++ posted_payloads u.
Proof.
  induction t as [|x t IH]; simpl; [done |].
  destruct x; simpl; by rewrite ?IH.
Qed.

Lemma relay_epilogue_posts_nothing o : posted_payloads (relay_epilogue o) = [].
Proof.
  unfold relay_epilogue. destruct o as [r|e].
  - case_bool_decide; [done |]. destruct (json r) as [b|e]; [done |].
    by destruct (is_RequestException e).
  - by destruct (is_RequestException e).
Qed.

(** X1: on a complete [event_data], a 4xx or 5xx answer makes [relay_event]
    return [False] after exactly one request (to the configured endpoint,
    with the configured headers and a timeout of 10) and one error line; the
    body of the answer is not decoded. *)
Theorem relay_event_http_error_is_failure
    (w : world) (cfg : config) (d : pydict) (h : heap) (r : response) :
  complete d →
  post_outcome w (posts_made h) = Ok r →
  400 ≤ status_code r < 600 →
  relay_event w cfg d h
  = (Ok false,
     extend 1
       [ERelayCall d;
        ELog INFO (MsgRelaying (api_endpoint cfg) (payload_of d));
        EPost (api_endpoint cfg) (headers cfg) (payload_of d) 10;
        ELog ERROR (MsgRelayFailed (RequestException "HTTPError"))] h)
  ∧ headers cfg !! "X-API-KEY" = Some (api_key cfg)
  ∧ headers cfg !! "Content-Type" = Some "application/json".
Proof.
  intros Hd Ho Hs. split; [| by split; unfold headers; simplify_map_eq].
  rewrite relay_event_complete by done. rewrite Ho.
  unfold relay_verdict, relay_effects, relay_epilogue.
  by rewrite bool_decide_eq_true_2 by done.
Qed.

Lemma relay_event_http_error_is_failure_witness :
  let d := processed_data_of sample_cfg "0xabc" (PAtom (AInt 100))
             sample_args in
  relay_event world_500 sample_cfg d started_heap
  = (Ok false,
     extend 1
       [ERelayCall d;
        ELog INFO (MsgRelaying (api_endpoint sample_cfg) (payload_of d));
        EPost (api_endpoint sample_cfg) (headers sample_cfg) (payload_of d) 10;
        ELog ERROR (MsgRelayFailed (RequestException "HTTPError"))]
       started_heap)
  ∧ headers sample_cfg !! "X-API-KEY" = Some (api_key sample_cfg)
  ∧ headers sample_cfg !! "Content-Type" = Some "application/json".
Proof.
  apply (relay_event_http_error_is_failure world_500 sample_cfg
           (processed_data_of sample_cfg "0xabc" (PAtom (AInt 100))
              sample_args)
           started_heap {| status_code := 500; json := Ok "{}" |}).
  - apply processed_data_complete.
  - reflexivity.
  - simpl. lia.
Defined.

(** X2: when [requests.post] itself raises, [relay_event] returns [False]
    and logs the error if the exception is a [RequestException] (network
    failure, timeout); an exception of any other class is not caught and
    leaves [relay_event], with nothing logged after the request. *)
Theorem relay_event_catches_request_exceptions_only
    (w : world) (cfg : config) (d : pydict) (h : heap) (e : exn) :
  complete d →
  post_outcome w (posts_made h) = Raise e →
  relay_event w cfg d h
  = (if is_RequestException e then Ok false else Raise e,
     extend 1
       ([ERelayCall d;
         ELog INFO (MsgRelaying (api_endpoint cfg) (payload_of d));
         EPost (api_endpoint cfg) (headers cfg) (payload_of d) 10]
        ++ (if is_RequestException e
            then [ELog ERROR (MsgRelayFailed e)] else [])) h).
Proof.
  intros Hd Ho. rewrite relay_event_complete by done. rewrite Ho.
  unfold relay_verdict, relay_effects, relay_epilogue. reflexivity.
Qed.

Lemma relay_event_catches_request_exceptions_only_witness :
  let d := processed_data_of sample_cfg "0xabc" (PAtom (AInt 100))
             sample_args in
  let e := RequestException "ConnectionError" in
  relay_event world_unreachable sample_cfg d started_heap
  = (if is_RequestException e then Ok false else Raise e,
     extend 1
       ([ERelayCall d;
         ELog INFO (MsgRelaying (api_endpoint sample_cfg) (payload_of d));
         EPost (api_endpoint sample_cfg) (headers sample_cfg) (payload_of d)
           10]
        ++ (if is_RequestException e
            then [ELog ERROR (MsgRelayFailed e)] else [])) started_heap).
Proof.
  apply (relay_event_catches_request_exceptions_only world_unreachable
           sample_cfg
           (processed_data_of sample_cfg "0xabc" (PAtom (AInt 100))
              sample_args)
           started_heap (RequestException "ConnectionError")).
  - apply processed_data_complete.
  - reflexivity.
Defined.

(** X3: on a complete [event_data], [relay_event] returns [True] exactly
    when the request returned an answer whose status is outside 400..599
    and whose body [response.json()] decodes. *)
Theorem relay_event_true_iff_not_error_and_decodable
    (w : world) (cfg : config) (d : pydict) (h : heap) :
  complete d →
  fst (relay_event w cfg d h) = Ok true
  ↔ ∃ r body, post_outcome w (posts_made h) = Ok r
              ∧ ¬ (400 ≤ status_code r < 600)
              ∧ json r = Ok body.
Proof.
  intros Hd. rewrite relay_event_complete by done. simpl.
  unfold relay_verdict. split.
  - destruct (post_outcome w (posts_made h)) as [r|e].
    + case_bool_decide; [done |]. destruct (json r) as [b|e] eqn:Hj.
      * intros _. by exists r, b.
      * by destruct (is_RequestException e).
    + by destruct (is_RequestException e).
  - intros (r & b & -> & Hs & Hj).
    rewrite bool_decide_eq_false_2 by done. by rewrite Hj.
Qed.

Lemma relay_event_true_iff_not_error_and_decodable_witness :
  let d := processed_data_of sample_cfg "0xabc" (PAtom (AInt 100))
             sample_args in
  fst (relay_event (world_with (λ _, http 200) []) sample_cfg d started_heap)
  = Ok true
  ↔ ∃ r body,
      post_outcome (world_with (λ _, http 200) []) (posts_made started_heap)
      = Ok r
      ∧ ¬ (400 ≤ status_code r < 600)
      ∧ json r = Ok body.
Proof.
  apply (relay_event_true_iff_not_error_and_decodable
           (world_with (λ _, http 200) []) sample_cfg
           (processed_data_of sample_cfg "0xabc" (PAtom (AInt 100))
              sample_args)
           started_heap).
  apply processed_data_complete.
Defined.

(** X4: when [event_data] lacks one of the keys [relay_event] indexes, the
    call raises [KeyError] for the first missing one: the [except] clause
    only catches [RequestException], so the error escapes, no request is
    made and nothing is logged. *)
Theorem relay_event_missing_key_raises
    (w : world) (cfg : config) (d : pydict) (h : heap) (k : string) :
  first_missing d = Some k →
  relay_event w cfg d h = (Raise (KeyError k), emit (ERelayCall d) h).
Proof.
  unfold first_missing, relay_keys, relay_event. unfold_monad. simpl.
  intros Hk.
  repeat match type of Hk with
  | context [bool_decide (d !! ?key = None)] =>
      destruct (d !! key) as [?|] eqn:?; simpl in Hk;
        [| by inversion Hk]
  end.
  done.
Qed.

Lemma relay_event_missing_key_raises_witness :
  relay_event world_500 sample_cfg event_data_without_token started_heap
  = (Raise (KeyError "token"),
     emit (ERelayCall event_data_without_token) started_heap).
Proof.
  apply (relay_event_missing_key_raises world_500 sample_cfg
           event_data_without_token started_heap "token").
  reflexivity.
Defined.

(** X5: the payload posted for a complete [event_data] has exactly the
    seven keys of the wire format, each taken from its key of [event_data]
    (['transactionHash'] becomes ['source_tx_hash']); any other key of
    [event_data] is not forwarded. *)
Theorem relay_event_payload_shape
    (w : world) (cfg : config) (d : pydict) (h : heap) :
  complete d →
  ∃ p,
    posted_payloads (trace (snd (relay_event w cfg d h)))
    = posted_payloads (trace h) ++ [p]
    ∧ dom p = payload_keys
    ∧ p !! "source_tx_hash" = d !! "transactionHash"
    ∧ p !! "source_chain_id" = d !! "source_chain_id"
    ∧ p !! "destination_chain_id" = d !! "destination_chain_id"
    ∧ p !! "user" = d !! "user"
    ∧ p !! "token" = d !! "token"
    ∧ p !! "amount" = d !! "amount"
    ∧ p !! "block_number" = d !! "block_number".
Proof.
  intros Hd. exists (payload_of d).
  assert (∀ k, k ∈ relay_keys → d !! k = Some (d !!! k)) as Hk
    by (intros; by apply complete_lookup).
  split; [| split].
  - rewrite relay_event_complete by done. simpl.
    unfold relay_effects. rewrite !posted_payloads_app. simpl.
    by rewrite relay_epilogue_posts_nothing.
  - unfold payload_of, payload_keys. rewrite !dom_insert_L, dom_singleton_L.
    set_solver.
  - unfold payload_of.
    repeat split; rewrite Hk by (unfold relay_keys; set_solver);
      by simplify_map_eq.
Qed.

Lemma relay_event_payload_shape_witness :
  ∃ p,
    posted_payloads
      (trace (snd (relay_event world_500 sample_cfg event_data_with_extra
                     started_heap)))
    = posted_payloads (trace started_heap) ++ [p]
    ∧ dom p = payload_keys
    ∧ p !! "source_tx_hash" = event_data_with_extra !! "transactionHash"
    ∧ p !! "source_chain_id" = event_data_with_extra !! "source_chain_id"
    ∧ p !! "destination_chain_id"
      = event_data_with_extra !! "destination_chain_id"
    ∧ p !! "user" = event_data_with_extra !! "user"
    ∧ p !! "token" = event_data_with_extra !! "token"
    ∧ p !! "amount" = event_data_with_extra !! "amount"
    ∧ p !! "block_number" = event_data_with_extra !! "block_number".
Proof.
  apply (relay_event_payload_shape world_500 sample_cfg event_data_with_extra
           started_heap).
  unfold complete, relay_keys. repeat constructor; by eexists.
Defined.

(** ** The connector and the filter *)

(** X6: a connection attempt that fails replaces [self.web3] by the new
    provider object and leaves [self.contract] as it was.  When the failure
    is of class [Exception] (the node is down, the address or the ABI is
    refused) it is logged and raised again as a [ConnectionError]; an
    exception outside [Exception] passes through unlogged. *)
Theorem connect_failure_is_wrapped
    (w : world) (cfg : config) (h : heap) (w3 : handle) (cause : exn) :
  connect_failure (connect_outcome w (connects_made h)) = Some (w3, cause) →
  let attempted :=
    set_web3 (Some w3) (bump_connects (emit (EConnect (rpc_url cfg)) h)) in
  _connect w cfg h
  = (if is_Exception cause
     then (Raise (ConnectionError "Could not establish connection"),
           emit (ELog ERROR (MsgConnectError cause)) attempted)
     else (Raise cause, attempted))
  ∧ web3 (snd (_connect w cfg h)) = Some w3
  ∧ contract (snd (_connect w cfg h)) = contract h.
Proof.
  intros Hf attempted.
  assert (_connect w cfg h
          = (if is_Exception cause
             then (Raise (ConnectionError "Could not establish connection"),
                   emit (ELog ERROR (MsgConnectError cause)) attempted)
             else (Raise cause, attempted))) as Hc.
  { unfold _connect. unfold_monad. simpl.
    destruct (connect_outcome w (connects_made h)) as [? ?|w3'|w3' e];
      simpl in Hf; inversion Hf; subst; simpl; [done |].
    by destruct (is_Exception cause). }
  split; [exact Hc |]. rewrite Hc. by destruct (is_Exception cause).
Qed.

Lemma connect_failure_is_wrapped_witness :
  let attempted :=
    set_web3 (Some 0%nat)
      (bump_connects (emit (EConnect (rpc_url sample_cfg)) started_heap)) in
  let cause := ConnectionError "Failed to connect to blockchain node" in
  _connect world_down sample_cfg started_heap
  = (if is_Exception cause
     then (Raise (ConnectionError "Could not establish connection"),
           emit (ELog ERROR (MsgConnectError cause)) attempted)
     else (Raise cause, attempted))
  ∧ web3 (snd (_connect world_down sample_cfg started_heap)) = Some 0%nat
  ∧ contract (snd (_connect world_down sample_cfg started_heap))
    = contract started_heap.
Proof.
  apply (connect_failure_is_wrapped world_down sample_cfg started_heap 0%nat
           (ConnectionError "Failed to connect to blockchain node")).
  reflexivity.
Defined.

(** X7: [_connect] returns normally exactly when the node is up and the
    contract object is built, and then both [self.web3] and [self.contract]
    hold the new objects; whatever the outcome, it makes one connection
    attempt. *)
Theorem connect_succeeds_iff_up (w : world) (cfg : config) (h : heap) :
  (fst (_connect w cfg h) = Ok tt
   ↔ ∃ w3 c, connect_outcome w (connects_made h) = ConnectUp w3 c)
  ∧ (∀ w3 c, connect_outcome w (connects_made h) = ConnectUp w3 c →
             web3 (snd (_connect w cfg h)) = Some w3
             ∧ contract (snd (_connect w cfg h)) = Some c)
  ∧ connects_made (snd (_connect w cfg h)) = S (connects_made h)
  ∧ count is_connect (trace (snd (_connect w cfg h)))
    = S (count is_connect (trace h)).
Proof.
  unfold _connect. unfold_monad. simpl.
  assert (∀ t x y, is_connect y = false →
            count is_connect ((t ++ [EConnect x]) ++ [y])
            = S (count is_connect t)) as Hcount.
  { intros t x y Hy. rewrite !count_app. simpl. rewrite Hy. lia. }
  destruct (connect_outcome w (connects_made h)) as [w3 c|w3|w3 e]; simpl.
  - split; [split; [intros _; by exists w3, c | done] |].
    split; [by intros ? ? [= -> ->] |]. split; [done |]. by apply Hcount.
  - split; [split; [done | by intros (? & ? & ?)] |].
    split; [by intros ? ? ? |]. split; [done |]. by apply Hcount.
  - destruct (is_Exception e); simpl.
    + split; [split; [done | by intros (? & ? & ?)] |].
      split; [by intros ? ? ? |]. split; [done |]. by apply Hcount.
    + split; [split; [done | by intros (? & ? & ?)] |].
      split; [by intros ? ? ? |]. split; [done |].
      rewrite !count_app. simpl. lia.
Qed.

(** X8: [_create_event_filter] never assigns an attribute (storing the
    filter is left to its caller).  Without a contract object it raises
    [ValueError] and does nothing else; with an event name that is not in
    the ABI it logs the error and raises [AttributeError] without asking the
    node for a filter; and it returns a filter only if the contract is
    there, the name is in the ABI and the node created that filter. *)
Theorem create_event_filter_outcomes (w : world) (cfg : config) (h : heap) :
  let r := _create_event_filter w cfg h in
  (web3 (snd r) = web3 h ∧ contract (snd r) = contract h
   ∧ event_filter (snd r) = event_filter h
   ∧ last_processed_block (snd r) = last_processed_block h)
  ∧ (contract h = None →
     r = (Raise (ValueError "Contract not initialized in ChainConnector."),
          h))
  ∧ (is_Some (contract h) → event_name cfg ∉ contract_abi cfg →
     r = (Raise (AttributeError (event_name cfg)),
          emit (ELog ERROR (MsgEventNotFound (event_name cfg))) h))
  ∧ (∀ f, fst r = Ok f →
          is_Some (contract h) ∧ event_name cfg ∈ contract_abi cfg
          ∧ create_filter_outcome w (filters_made h) = Ok f).
Proof.
  unfold _create_event_filter. unfold_monad. simpl.
  destruct (contract h) as [c|] eqn:Hc; simpl.
  - case_bool_decide as Habi; simpl.
    + destruct (create_filter_outcome w (filters_made h)) as [f|e]; simpl.
      * split_and!; done.
      * destruct (is_AttributeError e); simpl; split_and!; done.
    + split_and!; done.
  - split_and!; try done; by intros [? ?].
Qed.

(** ** More on startup *)

(** X9: with the four variables set and the node down at startup, [main]
    logs the connection error and the critical line and returns normally:
    no filter is created, nothing is polled and nothing is posted. *)
Theorem main_node_down_exits_cleanly
    (w : world) (environ : gmap string string) (fuel : nat) (h : heap)
    (w3 : handle) :
  Forall (λ v, truthy (environ !! v) = true) required_vars →
  connect_outcome w (connects_made h) = ConnectDown w3 →
  ∃ h',
    main w environ fuel h = (Ok tt, h')
    ∧ trace h'
      = trace h
        ++ [EConnect (default "" (environ !! "SOURCE_CHAIN_RPC_URL"));
            ELog ERROR
              (MsgConnectError
                 (ConnectionError "Failed to connect to blockchain node"));
            ELog CRITICAL
              (MsgInitConnectionError
                 (ConnectionError "Could not establish connection"))]
    ∧ filters_made h' = filters_made h
    ∧ polls_made h' = polls_made h
    ∧ posts_made h' = posts_made h.
Proof.
  intros Hall Hdown. rewrite Forall_forall in Hall.
  unfold main, py_all. simpl.
  rewrite !Hall by (unfold required_vars; set_solver). simpl.
  unfold ChainConnector_init, _connect. unfold_monad. simpl.
  rewrite Hdown. simpl. eexists. split; [reflexivity |].
  simpl. rewrite <- !app_assoc. done.
Qed.

Lemma main_node_down_exits_cleanly_witness :
  ∃ h',
    main world_down environ_four 3 fresh_heap = (Ok tt, h')
    ∧ trace h'
      = trace fresh_heap
        ++ [EConnect (default "" (environ_four !! "SOURCE_CHAIN_RPC_URL"));
            ELog ERROR
              (MsgConnectError
                 (ConnectionError "Failed to connect to blockchain node"));
            ELog CRITICAL
              (MsgInitConnectionError
                 (ConnectionError "Could not establish connection"))]
    ∧ filters_made h' = filters_made fresh_heap
    ∧ polls_made h' = polls_made fresh_heap
    ∧ posts_made h' = posts_made fresh_heap.
Proof.
  apply (main_node_down_exits_cleanly world_down environ_four 3 fresh_heap
           0%nat).
  - repeat constructor.
  - reflexivity.
Defined.

(** X10: no exception of class [Exception] leaves [main]: whatever the
    environment and the world, if [main] raises, what it raises is outside
    [Exception] (a [KeyboardInterrupt] or [SystemExit] that reached it). *)
Theorem main_lets_no_Exception_escape
    (w : world) (environ : gmap string string) (fuel : nat) (h h' : heap)
    (e : exn) :
  main w environ fuel h = (Raise e, h') →
  is_Exception e = false.
Proof.
  unfold main. destruct (negb _); [by unfold_monad |].
  unfold try_except2.
  destruct (bind _ _ h) as [[a|e0] h0]; [done |].
  destruct (is_ConnectionError e0); [by unfold_monad |].
  destruct (is_Exception e0) eqn:He0; [by unfold_monad |].
  by intros [= <- _].
Qed.

Lemma main_lets_no_Exception_escape_witness :
  is_Exception KeyboardInterrupt = false.
Proof.
  apply (main_lets_no_Exception_escape world_interrupted_connect environ_four
           3 fresh_heap
           (snd (main world_interrupted_connect environ_four 3 fresh_heap))
           KeyboardInterrupt).
  reflexivity.
Defined.

(** ** What the loop leaves alone *)

Lemma preserves_ret {A X} (f : heap → X) (a : A) : preserves f (ret a).
Proof. by intros h. Qed.

Lemma preserves_raise {A X} (f : heap → X) (e : exn) :
  preserves f (@raise A e).
Proof. by intros h. Qed.

Lemma preserves_modify {X} (f : heap → X) (g : heap → heap) :
  (∀ h, f (g h) = f h) → preserves f (modify g).
Proof. intros Hg h. apply Hg. Qed.

Lemma preserves_gets {A X} (f : heap → X) (g : heap → A) :
  preserves f (gets g).
Proof. by intros h. Qed.

Lemma preserves_bind {A B X} (f : heap → X) (m : M A) (k : A → M B) :
  preserves f m → (∀ a, preserves f (k a)) → preserves f (bind m k).
Proof.
  intros Hm Hk h. unfold bind. specialize (Hm h).
  destruct (m h) as [[a|e] h1]; simpl in *; [| done].
  by rewrite Hk.
Qed.

Lemma preserves_try_except {A X} (f : heap → X) (m : M A) class handler :
  preserves f m → (∀ e, preserves f (handler e)) →
  preserves f (try_except m class handler).
Proof.
  intros Hm Hh h. unfold try_except. specialize (Hm h).
  destruct (m h) as [[a|e] h1]; simpl in *; [done |].
  destruct (class e); simpl; [by rewrite Hh | done].
Qed.

Create HintDb frame.

Ltac frame_step :=
  match goal with
  | |- ∀ _, _ => intros ?; cbv beta
  | |- preserves _ (bind _ _) => apply preserves_bind
  | |- preserves _ (try_except _ _ _) => apply preserves_try_except
  | |- preserves _ (ret _) => apply preserves_ret
  | |- preserves _ (raise _) => apply preserves_raise
  | |- preserves _ (modify _) => apply preserves_modify; reflexivity
  | |- preserves _ (gets _) => apply preserves_gets
  | |- preserves _ (match ?x with _ => _ end) => destruct x
  | |- preserves _ _ => solve [auto with frame]
  end.

Ltac frame := repeat frame_step.

Section Frame.

Context (w : world) (cfg : config).
Context {X : Type} (f : heap → X).

(** [f] does not look at the trace nor at the request counter. *)
Hypothesis f_emit : ∀ x h, f (emit x h) = f h.
Hypothesis f_posts : ∀ h, f (bump_posts h) = f h.

Lemma preserves_log lvl m : preserves f (log lvl m).
Proof. unfold log. apply preserves_modify. intros h. apply f_emit. Qed.

Lemma preserves_sleep n : preserves f (sleep n).
Proof. unfold sleep. apply preserves_modify. intros h. apply f_emit. Qed.

Lemma preserves_getitem {V} (d : gmap string V) k : preserves f (getitem d k).
Proof. unfold getitem. frame. Qed.

#[local] Hint Resolve preserves_log preserves_sleep preserves_getitem : frame.

Lemma preserves_relay_event d : preserves f (relay_event w cfg d).
Proof.
  unfold relay_event, requests_post, raise_for_status, response_json.
  frame; try (apply preserves_modify; intros h; by rewrite ?f_posts, ?f_emit).
Qed.

#[local] Hint Resolve preserves_relay_event : frame.

Lemma preserves_relay_with_retries attempts d :
  preserves f (relay_with_retries w cfg attempts d).
Proof.
  induction attempts as [|a rest IH]; cbn [relay_with_retries]; frame.
Qed.

#[local] Hint Resolve preserves_relay_with_retries : frame.

Lemma preserves__process_event event :
  preserves f (_process_event w cfg event).
Proof. unfold _process_event, hex, get. frame. Qed.

#[local] Hint Resolve preserves__process_event : frame.

Lemma preserves_process_all logs : preserves f (process_all w cfg logs).
Proof. induction logs as [|ev rest IH]; cbn [process_all]; frame. Qed.

End Frame.

Lemma attributes_emit x h : attributes (emit x h) = attributes h.
Proof. reflexivity. Qed.

Lemma attributes_bump_posts h : attributes (bump_posts h) = attributes h.
Proof. reflexivity. Qed.

(** X11: the poll/process cycle, whatever it polls, delivers or raises,
    never assigns [web3], [contract], [event_filter] or
    [last_processed_block], and never connects or creates a filter: those
    are written by the constructors and by the reconnection only. *)
Theorem cycle_leaves_attributes_alone
    (w : world) (cfg : config) (pi : Z) (h : heap) :
  let h' := snd (poll_and_process w cfg pi h) in
  attributes h' = attributes h
  ∧ connects_made h' = connects_made h
  ∧ filters_made h' = filters_made h.
Proof.
  assert (∀ X (f : heap → X),
            (∀ x h, f (emit x h) = f h) →
            (∀ h, f (bump_posts h) = f h) →
            (∀ h, f (bump_polls h) = f h) →
            preserves f (poll_and_process w cfg pi)) as Hframe.
  { intros X f Hemit Hposts Hpolls. unfold poll_and_process, get_new_entries.
    frame;
      try (apply preserves_modify; intros ?; by rewrite ?Hpolls, ?Hemit);
      try (by apply preserves_log);
      try (by apply preserves_sleep);
      by apply preserves_process_all. }
  cbn zeta. split_and!.
  - by apply (Hframe _ attributes).
  - by apply (Hframe _ connects_made).
  - by apply (Hframe _ filters_made).
Qed.

(** ** Interrupts *)

Section Interrupts.

Context (w : world) (cfg : config).
Hypothesis Hw : no_interrupts w.

Lemma relay_verdict_raises_only_Exception n e :
  relay_verdict (post_outcome w n) = Raise e → is_Exception e = true.
Proof.
  destruct Hw as (Hpost & Hjson & _). unfold relay_verdict.
  destruct (post_outcome w n) as [r|e0] eqn:Ho.
  - case_bool_decide; [done |]. destruct (json r) as [b|e1] eqn:Hj; [done |].
    destruct (is_RequestException e1); [done |].
    intros [= <-]. by eapply Hjson.
  - destruct (is_RequestException e0); [done |].
    intros [= <-]. by eapply Hpost.
Qed.

Lemma relay_with_retries_raises_only_Exception attempts d :
  complete d →
  raises_only_Exception (relay_with_retries w cfg attempts d).
Proof.
  intros Hd. induction attempts as [|a rest IH]; intros h e h' Hrun.
  - by unfold relay_with_retries, log, modify in Hrun.
  - cbn [relay_with_retries] in Hrun. unfold bind at 1 in Hrun.
    rewrite relay_event_complete in Hrun by done.
    destruct (relay_verdict (post_outcome w (posts_made h)))
      as [[|]|e0] eqn:Hv.
    + revert Hrun. unfold_monad.
      rewrite (complete_lookup d "transactionHash")
        by (done || (unfold relay_keys; set_solver)).
      done.
    + revert Hrun. unfold bind at 1 2. unfold log, sleep, modify. simpl.
      apply IH.
    + inversion Hrun; subst. by eapply relay_verdict_raises_only_Exception.
Qed.

(** Runs [_process_event] on a log whose lookups are known and closes the
    cases that end before the retry loop. *)
Ltac crunch_event :=
  unfold _process_event, hex, get; unfold_monad;
  repeat match goal with H : _ !! _ = _ |- _ => rewrite H end;
  simpl; try done; by intros [= <- _].

Lemma _process_event_raises_only_Exception event :
  raises_only_Exception (_process_event w cfg event).
Proof.
  intros h e h'.
  destruct (event !! "transactionHash") as [[a|tx|d]|] eqn:Htx;
    [crunch_event | | crunch_event | crunch_event].
  destruct (event !! "args") as [x|] eqn:Ha; [| crunch_event].
  destruct (event !! "blockNumber") as [b|] eqn:Hb; [| crunch_event].
  destruct x as [a|hx|args]; [crunch_event | crunch_event |].
  rewrite (_process_event_well_formed w cfg event tx b args h) by done.
  apply relay_with_retries_raises_only_Exception.
  apply processed_data_complete.
Qed.

Lemma process_all_raises_only_Exception logs :
  raises_only_Exception (process_all w cfg logs).
Proof.
  induction logs as [|ev rest IH]; intros h e h'; cbn [process_all].
  - done.
  - unfold bind.
    destruct (_process_event w cfg ev h) as [[[]|e0] h1] eqn:Hev.
    + apply IH.
    + intros [= <- _]. by eapply _process_event_raises_only_Exception.
Qed.

Lemma poll_and_process_raises_only_Exception pi :
  raises_only_Exception (poll_and_process w cfg pi).
Proof.
  destruct Hw as (_ & _ & Hpoll & _).
  intros h e h'. unfold poll_and_process, get_new_entries.
  unfold bind at 1 2 3. unfold gets at 1.
  destruct (event_filter h) as [f|]; [| by intros [= <- _]].
  unfold bind at 1 2. unfold gets at 1. unfold modify at 1.
  destruct (poll_outcome w (polls_made h) f) as [logs|e0] eqn:Hp.
  - unfold ret at 1.
    destruct logs as [|ev logs].
    + by unfold_monad.
    + destruct (process_all w cfg (ev :: logs) _) as [[[]|e1] h1] eqn:Hall.
      * by unfold_monad.
      * intros [= <- _]. by eapply process_all_raises_only_Exception.
  - unfold raise at 1. intros [= <- _]. by eapply Hpoll.
Qed.

(** Without interrupts a turn of the loop always ends normally and asks
    for another. *)
Lemma run_iteration_continues pi h :
  ∃ h', run_iteration w cfg pi h = (Ok Continue, h').
Proof.
  unfold run_iteration, try_except2, bind at 1.
  destruct (poll_and_process w cfg pi h) as [[[]|e] h1] eqn:Hcycle.
  - by eexists.
  - pose proof (poll_and_process_raises_only_Exception pi _ _ _ Hcycle) as He.
    assert (is_KeyboardInterrupt e = false) as -> by by destruct e.
    rewrite He. unfold recover. unfold bind at 1 2 3 4. unfold log, sleep,
      modify. simpl.
    destruct Hw as (_ & _ & _ & Hord).
    edestruct (reconnect_outcome w cfg) as (after & h2 & -> & _); [done |].
    by eexists.
Qed.

End Interrupts.

(** X12: in a world that never interrupts (every exception raised by the
    node or the destination is of class [Exception]), [run] neither returns
    nor raises: however many turns are observed it is still running. *)
Theorem run_keeps_running_without_interrupts
    (w : world) (cfg : config) (fuel : nat) (pi : Z) (h : heap) :
  no_interrupts w →
  ∃ h', run w cfg fuel pi h = (Ok Running, h').
Proof.
  intros Hw. unfold run, bind, log, modify. simpl.
  generalize (emit (ELog INFO (MsgStarting (event_name cfg))) h).
  induction fuel as [|fuel IH]; intros h0; cbn [run_loop].
  - by eexists.
  - unfold bind.
    destruct (run_iteration_continues w cfg Hw pi h0) as [h1 ->].
    apply IH.
Qed.

Lemma world_outage_no_interrupts : no_interrupts world_outage.
Proof.
  unfold no_interrupts, ordinary_failures, world_outage, http. simpl.
  split_and!; try (intros; discriminate).
  - intros n r e [= <-]. discriminate.
  - intros [|n] f e; [| discriminate]. by intros [= <-].
Qed.

Lemma run_keeps_running_without_interrupts_witness :
  ∃ h', run world_outage sample_cfg 3 5 started_heap = (Ok Running, h').
Proof.
  apply (run_keeps_running_without_interrupts world_outage sample_cfg 3 5
           started_heap).
  unfold no_interrupts, ordinary_failures, world_outage, http. simpl.
  split_and!; try (intros; discriminate).
  - intros n r e [= <-]. discriminate.
  - intros [|n] f e; [| discriminate]. by intros [= <-].
Defined.

(** X13: a [KeyboardInterrupt] raised anywhere in the poll/process cycle
    (in the poll, or in the middle of a delivery) stops [run] at once: the
    shutdown line is logged and [run] returns, without reconnecting and
    without another turn. *)
Theorem keyboard_interrupt_stops_run
    (w : world) (cfg : config) (fuel : nat) (pi : Z) (h h1 : heap) :
  poll_and_process w cfg pi h = (Raise KeyboardInterrupt, h1) →
  run_loop w cfg (S fuel) pi h
  = (Ok Returned, emit (ELog INFO MsgShutdown) h1).
Proof.
  intros Hcycle. cbn [run_loop]. unfold bind at 1.
  unfold run_iteration, try_except2, bind at 1. by rewrite Hcycle.
Qed.

Lemma keyboard_interrupt_stops_run_witness :
  run_loop world_interrupted_post sample_cfg 4 5 started_heap
  = (Ok Returned,
     emit (ELog INFO MsgShutdown)
       (snd (poll_and_process world_interrupted_post sample_cfg 5
               started_heap))).
Proof.
  apply (keyboard_interrupt_stops_run world_interrupted_post sample_cfg 3 5
           started_heap).
  reflexivity.
Defined.

(** X14: the shutdown clause does not cover the recovery.  When the cycle
    raised an [Exception] and the connection attempt of the recovery raises
    something outside [Exception] (a [KeyboardInterrupt] during the
    reconnection), that exception leaves [run]: no shutdown line is logged
    and the loop is over. *)
Theorem interrupt_during_recovery_leaves_run
    (w : world) (cfg : config) (fuel : nat) (pi : Z) (h h1 : heap)
    (e cause : exn) (w3 : handle) :
  poll_and_process w cfg pi h = (Raise e, h1) →
  is_Exception e = true →
  connect_outcome w (connects_made h1) = ConnectRaises w3 cause →
  is_Exception cause = false →
  run_loop w cfg (S fuel) pi h
  = (Raise cause,
     set_web3 (Some w3)
       (bump_connects
          (emit (EConnect (rpc_url cfg))
             (emit (ESleep reconnect_delay)
                (emit (ELog INFO MsgReconnecting)
                   (emit (ELog CRITICAL (MsgUnexpected e)) h1)))))).
Proof.
  intros Hcycle He Hc Hcause. cbn [run_loop]. unfold bind at 1.
  unfold run_iteration, try_except2, bind at 1. rewrite Hcycle.
  assert (is_KeyboardInterrupt e = false) as -> by by destruct e.
  rewrite He. unfold recover, _reconnect_and_recreate_filter, _connect.
  unfold_monad. simpl. rewrite Hc. simpl.
  repeat (rewrite Hcause; simpl). reflexivity.
Qed.

Lemma interrupt_during_recovery_leaves_run_witness :
  run_loop world_interrupted_connect sample_cfg 4 5 started_heap
  = (Raise KeyboardInterrupt,
     set_web3 (Some 0%nat)
       (bump_connects
          (emit (EConnect (rpc_url sample_cfg))
             (emit (ESleep reconnect_delay)
                (emit (ELog INFO MsgReconnecting)
                   (emit (ELog CRITICAL
                            (MsgUnexpected (OtherException "RPCError")))
                      (polled 0 started_heap))))))).
Proof.
  apply (interrupt_during_recovery_leaves_run world_interrupted_connect
           sample_cfg 3 5 started_heap (polled 0 started_heap)
           (OtherException "RPCError") KeyboardInterrupt 0%nat).
  - reflexivity.
  - reflexivity.
  - reflexivity.
  - reflexivity.
Defined.

(** ** Batches and payloads *)

Lemma parse_log_Some event tx block args :
  parse_log event = Some (tx, block, args) →
  event !! "transactionHash" = Some (PHexBytes tx)
  ∧ event !! "blockNumber" = Some block
  ∧ event !! "args" = Some (PDict args).
Proof.
  unfold parse_log. intros H.
  destruct (event !! "transactionHash") as [[?|?|?]|]; try done.
  destruct (event !! "blockNumber"); try done.
  destruct (event !! "args") as [[?|?|?]|]; try done.
  by inversion H.
Qed.

Lemma payload_of_processed_data cfg tx block args :
  payload_of (processed_data_of cfg tx block args)
  = wire_payload cfg tx block args.
Proof.
  assert (∀ k v, processed_data_of cfg tx block args !! k = Some v →
                 processed_data_of cfg tx block args !!! k = v) as Htot
    by (intros; by apply lookup_total_correct).
  unfold payload_of, wire_payload.
  rewrite (Htot "transactionHash" (PAtom (AStr tx))),
    (Htot "source_chain_id" (PAtom (AInt (source_chain_id cfg)))),
    (Htot "destination_chain_id"
       (PAtom (dict_get args "destinationChainId"))),
    (Htot "user" (PAtom (dict_get args "user"))),
    (Htot "token" (PAtom (dict_get args "token"))),
    (Htot "amount" (PAtom (AStr (py_str (dict_get args "amount"))))),
    (Htot "block_number" block);
    try reflexivity; unfold processed_data_of; by simplify_map_eq.
Qed.

Lemma relay_effects_observed cfg d o :
  count is_post (relay_effects cfg d o) = 1%nat
  ∧ count is_relay_call (relay_effects cfg d o) = 1%nat
  ∧ sleeps (relay_effects cfg d o) = []
  ∧ posted_payloads (relay_effects cfg d o) = [payload_of d].
Proof.
  unfold relay_effects.
  rewrite !count_app, sleeps_app, posted_payloads_app. simpl.
  destruct (relay_epilogue_quiet o) as (-> & -> & ->).
  by rewrite relay_epilogue_posts_nothing.
Qed.

Section Batches.

Context (w : world) (cfg : config).

(** A delivery that succeeds at the first attempt. *)
Lemma relay_first_attempt_success a rest d h :
  complete d →
  relay_verdict (post_outcome w (posts_made h)) = Ok true →
  relay_with_retries w cfg (a :: rest) d h
  = (Ok tt,
     extend 1 (relay_effects cfg d (post_outcome w (posts_made h))
               ++ [ELog INFO (MsgProcessed (d !!! "transactionHash"))]) h).
Proof.
  intros Hd Hok. cbn [relay_with_retries]. unfold bind at 1.
  rewrite relay_event_complete by done. rewrite Hok. unfold_monad.
  rewrite (complete_lookup d "transactionHash")
    by (done || (unfold relay_keys; set_solver)).
  by rewrite emit_extend.
Qed.

(** Whatever the answers, the retry loop makes at most one request per
    attempt, always with the same payload, and sleeps a prefix of the
    backoff schedule. *)
Lemma relay_with_retries_bounded attempts d h :
  complete d →
  ∃ new n,
    snd (relay_with_retries w cfg attempts d h) = extend n new h
    ∧ (n ≤ length attempts)%nat
    ∧ count is_post new = n
    ∧ count is_relay_call new = n
    ∧ sleeps new `prefix_of` ((λ a, 2 ^ a) <$> attempts)
    ∧ Forall (λ p, p = payload_of d) (posted_payloads new).
Proof.
  intros Hd. revert h. induction attempts as [|a rest IH]; intros h.
  - exists [ELog ERROR (MsgRelayExhausted (Z.of_nat max_retries))], 0%nat.
    split_and!; try done; simpl; apply prefix_nil.
  - set (E := relay_effects cfg d (post_outcome w (posts_made h))).
    destruct (relay_effects_observed cfg d (post_outcome w (posts_made h)))
      as (Hp & Hc & Hs & Hpay). fold E in Hp, Hc, Hs, Hpay.
    cbn [relay_with_retries]. unfold bind at 1.
    rewrite relay_event_complete by done. fold E.
    destruct (relay_verdict (post_outcome w (posts_made h)))
      as [[|]|e] eqn:Hv.
    + exists (E ++ [ELog INFO (MsgProcessed (d !!! "transactionHash"))]),
        1%nat.
      split_and!.
      * unfold_monad.
        rewrite (complete_lookup d "transactionHash")
          by (done || (unfold relay_keys; set_solver)).
        simpl. by rewrite emit_extend.
      * simpl. lia.
      * rewrite count_app, Hp. simpl. lia.
      * rewrite count_app, Hc. simpl. lia.
      * rewrite sleeps_app, Hs. simpl. apply prefix_nil.
      * rewrite posted_payloads_app, Hpay. simpl. by repeat constructor.
    + set (h1 := extend 1 (E ++ [ELog WARNING
                   (MsgAttemptFailed (a + 1) (Z.of_nat max_retries));
                   ESleep (2 ^ a)]) h).
      destruct (IH h1) as (new & n & Hsnd & Hn & Hnp & Hnc & Hns & Hnpay).
      exists (E ++ [ELog WARNING
                      (MsgAttemptFailed (a + 1) (Z.of_nat max_retries));
                    ESleep (2 ^ a)] ++ new), (S n).
      split_and!.
      * unfold_monad. rewrite !emit_extend, <- !app_assoc. simpl.
        change (relay_with_retries w cfg rest d _)
          with (relay_with_retries w cfg rest d h1).
        rewrite Hsnd. unfold h1. rewrite extend_extend, <- !app_assoc.
        simpl. f_equal. lia.
      * simpl. lia.
      * rewrite !count_app, Hp, Hnp. simpl. lia.
      * rewrite !count_app, Hc, Hnc. simpl. lia.
      * rewrite !sleeps_app, Hs. simpl. by apply prefix_cons.
      * rewrite !posted_payloads_app, Hpay. simpl. by constructor.
    + exists E, 1%nat. split_and!; try done.
      * simpl. lia.
      * rewrite Hs. apply prefix_nil.
      * rewrite Hpay. by repeat constructor.
Qed.

End Batches.

(** X15: whatever the log and whatever the destination answers,
    [_process_event] makes at most 3 delivery calls and 3 requests, all its
    requests carry the same payload (the wire payload of the log), it
    sleeps a prefix of 1, 2, 4, and apart from the trace and the request
    counter it changes nothing. *)
Theorem per_event_work_is_bounded
    (w : world) (cfg : config) (event : pydict) (h : heap) :
  ∃ new n,
    snd (_process_event w cfg event h) = extend n new h
    ∧ (n ≤ 3)%nat
    ∧ count is_post new = n
    ∧ count is_relay_call new = n
    ∧ sleeps new `prefix_of` [1; 2; 4]
    ∧ ∀ tx block args, parse_log event = Some (tx, block, args) →
        Forall (λ p, p = wire_payload cfg tx block args)
          (posted_payloads new).
Proof.
  assert (∀ new, count is_post new = 0%nat →
                 count is_relay_call new = 0%nat → sleeps new = [] →
                 posted_payloads new = [] →
                 parse_log event = None →
                 snd (_process_event w cfg event h) = extend 0 new h →
                 ∃ new n,
                   snd (_process_event w cfg event h) = extend n new h
                   ∧ (n ≤ 3)%nat
                   ∧ count is_post new = n
                   ∧ count is_relay_call new = n
                   ∧ sleeps new `prefix_of` [1; 2; 4]
                   ∧ ∀ tx block args,
                       parse_log event = Some (tx, block, args) →
                       Forall (λ p, p = wire_payload cfg tx block args)
                         (posted_payloads new)) as Hquiet.
  { intros new Hp Hc Hs Hpay Hparse Hsnd. exists new, 0%nat.
    split_and!; try done; [lia | rewrite Hs; apply prefix_nil |].
    intros ? ? ?. by rewrite Hparse. }
  destruct (parse_log event) as [[[tx block] args]|] eqn:Hparse.
  - apply parse_log_Some in Hparse as (Htx & Hb & Ha).
    rewrite (_process_event_well_formed w cfg event tx block args h) by done.
    destruct (relay_with_retries_bounded w cfg (py_range max_retries)
                (processed_data_of cfg tx block args)
                (emit (ELog INFO (MsgNewEvent (event_name cfg) tx)) h))
      as (new & n & Hsnd & Hn & Hp & Hc & Hs & Hpay).
    { apply processed_data_complete. }
    exists (ELog INFO (MsgNewEvent (event_name cfg) tx) :: new), n.
    split_and!; try done.
    + rewrite Hsnd, emit_as_extend, extend_extend. simpl. f_equal. lia.
    + intros ? ? ? [= <- <- <-]. simpl.
      by rewrite <- payload_of_processed_data.
  - unfold parse_log in Hparse.
    destruct (event !! "transactionHash") as [[a|tx|d]|] eqn:Htx.
    + apply (Hquiet []); try done.
      unfold _process_event, hex. unfold_monad. rewrite Htx. simpl.
      by rewrite extend_0_nil.
    + destruct (event !! "args") as [x|] eqn:Ha.
      * destruct (event !! "blockNumber") as [b|] eqn:Hb.
        -- destruct x as [a|hx|args]; [| | done];
             apply (Hquiet [ELog INFO (MsgNewEvent (event_name cfg) tx)]);
             try done;
             unfold _process_event, hex, get; unfold_monad;
             rewrite Htx, Ha, Hb; simpl; reflexivity.
        -- apply (Hquiet [ELog INFO (MsgNewEvent (event_name cfg) tx)]);
             try done.
           unfold _process_event, hex, get. unfold_monad.
           rewrite Htx, Ha, Hb. simpl. reflexivity.
      * apply (Hquiet [ELog INFO (MsgNewEvent (event_name cfg) tx);
                       ELog WARNING (MsgMissingArgs event)]); try done.
        unfold _process_event, hex, get. unfold_monad.
        rewrite Htx, Ha. simpl. by canon_heap.
    + apply (Hquiet []); try done.
      unfold _process_event, hex. unfold_monad. rewrite Htx. simpl.
      by rewrite extend_0_nil.
    + apply (Hquiet []); try done.
      unfold _process_event, hex. unfold_monad. rewrite Htx. simpl.
      by rewrite extend_0_nil.
Qed.

(** X16: a batch of logs that reach the retry loop, each delivery answered
    with a success at once, is processed to the end: one request per log,
    in the order the filter returned them, each with the wire payload of
    its log, and without any backoff sleep. *)
Theorem batch_is_delivered_in_order
    (w : world) (cfg : config) (logs : list pydict)
    (parsed : list (string * pyval * gmap string atom)) (h : heap) :
  Forall2 (λ event p, parse_log event = Some p) logs parsed →
  (∀ i, (i < length logs)%nat →
        relay_verdict (post_outcome w (i + posts_made h)) = Ok true) →
  ∃ h',
    process_all w cfg logs h = (Ok tt, h')
    ∧ posted_payloads (trace h')
      = posted_payloads (trace h) ++ (wire_payload_of cfg <$> parsed)
    ∧ sleeps (trace h') = sleeps (trace h)
    ∧ posts_made h' = (length logs + posts_made h)%nat.
Proof.
  intros Hparsed. revert h.
  induction Hparsed as [|event [[tx block] args] logs parsed Hp _ IH];
    intros h Hok.
  - exists h. simpl. by rewrite app_nil_r.
  - apply parse_log_Some in Hp as (Htx & Hb & Ha).
    set (d := processed_data_of cfg tx block args).
    set (h0 := emit (ELog INFO (MsgNewEvent (event_name cfg) tx)) h).
    set (E := relay_effects cfg d (post_outcome w (posts_made h))).
    set (h1 := extend 1 (E ++ [ELog INFO (MsgProcessed (d !!! "transactionHash"))]) h0).
    assert (_process_event w cfg event h = (Ok tt, h1)) as Hev.
    { rewrite (_process_event_well_formed w cfg event tx block args h)
        by done.
      change (py_range max_retries) with [0; 1; 2].
      rewrite (relay_first_attempt_success w cfg); [done | |].
      - apply processed_data_complete.
      - apply (Hok 0%nat). simpl. lia. }
    destruct (IH h1) as (h' & Hall & Hpay & Hsl & Hposts).
    { intros i Hi. simpl.
      replace (i + S (posts_made h))%nat with (S i + posts_made h)%nat by lia.
      apply Hok. simpl. lia. }
    destruct (relay_effects_observed cfg d (post_outcome w (posts_made h)))
      as (_ & _ & HsE & HpE). fold E in HsE, HpE.
    exists h'. split_and!.
    + cbn [process_all]. unfold bind at 1. by rewrite Hev.
    + rewrite Hpay. unfold h1, h0. cbn [trace extend emit].
      rewrite !posted_payloads_app, HpE. simpl.
      rewrite app_nil_r, <- app_assoc. simpl.
      unfold wire_payload_of at 2. simpl. unfold d.
      by rewrite payload_of_processed_data.
    + rewrite Hsl. unfold h1, h0. cbn [trace extend emit].
      rewrite !sleeps_app, HsE. simpl. by rewrite !app_nil_r.
    + rewrite Hposts. unfold h1, h0. simpl. lia.
Qed.

Lemma batch_is_delivered_in_order_witness :
  ∃ h',
    process_all (world_with (λ _, http 200) []) sample_cfg
      [sample_log; partial_log] started_heap = (Ok tt, h')
    ∧ posted_payloads (trace h')
      = posted_payloads (trace started_heap)
        ++ (wire_payload_of sample_cfg
              <$> [("0xabc", PAtom (AInt 100), sample_args);
                   ("0xdef", PAtom (AInt 101), {[ "amount" := AInt 5 ]})])
    ∧ sleeps (trace h') = sleeps (trace started_heap)
    ∧ posts_made h' = (length [sample_log; partial_log]
                       + posts_made started_heap)%nat.
Proof.
  apply (batch_is_delivered_in_order (world_with (λ _, http 200) [])
           sample_cfg [sample_log; partial_log]
           [("0xabc", PAtom (AInt 100), sample_args);
            ("0xdef", PAtom (AInt 101), {[ "amount" := AInt 5 ]})]
           started_heap).
  - repeat constructor.
  - intros i Hi. reflexivity.
Defined.

(** X17: a log whose arguments lack ['user'], ['token'] or
    ['destinationChainId'] is delivered all the same: when the destination
    accepts the request, exactly one payload is posted, in which each absent
    field is [None] and the other fields are those of the log. *)
Theorem partial_log_is_still_delivered
    (w : world) (cfg : config) (event : pydict) (tx : string) (block : pyval)
    (args : gmap string atom) (h : heap) :
  parse_log event = Some (tx, block, args) →
  relay_verdict (post_outcome w (posts_made h)) = Ok true →
  ∃ p,
    fst (_process_event w cfg event h) = Ok tt
    ∧ posted_payloads (trace (snd (_process_event w cfg event h)))
      = posted_payloads (trace h) ++ [p]
    ∧ p !! "user" = Some (PAtom (default ANone (args !! "user")))
    ∧ p !! "token" = Some (PAtom (default ANone (args !! "token")))
    ∧ p !! "destination_chain_id"
      = Some (PAtom (default ANone (args !! "destinationChainId")))
    ∧ p !! "source_tx_hash" = Some (PAtom (AStr tx))
    ∧ p !! "block_number" = Some block
    ∧ p !! "source_chain_id" = Some (PAtom (AInt (source_chain_id cfg))).
Proof.
  intros Hp Hok. apply parse_log_Some in Hp as (Htx & Hb & Ha).
  exists (wire_payload cfg tx block args).
  rewrite (_process_event_well_formed w cfg event tx block args h) by done.
  change (py_range max_retries) with [0; 1; 2].
  rewrite (relay_first_attempt_success w cfg);
    [| apply processed_data_complete | done].
  split_and!; try (unfold wire_payload; by simplify_map_eq).
  cbn [snd trace extend emit]. rewrite !posted_payloads_app.
  match goal with
  | |- context [relay_effects ?c ?d ?o] =>
      destruct (relay_effects_observed c d o) as (_ & _ & _ & ->)
  end.
  simpl. by rewrite !app_nil_r, payload_of_processed_data.
Qed.

Lemma partial_log_is_still_delivered_witness :
  ∃ p,
    fst (_process_event (world_with (λ _, http 200) []) sample_cfg
           partial_log started_heap) = Ok tt
    ∧ posted_payloads
        (trace (snd (_process_event (world_with (λ _, http 200) [])
                       sample_cfg partial_log started_heap)))
      = posted_payloads (trace started_heap) ++ [p]
    ∧ p !! "user"
      = Some (PAtom (default ANone
                       (({[ "amount" := AInt 5 ]} : gmap string atom)
                          !! "user")))
    ∧ p !! "token"
      = Some (PAtom (default ANone
                       (({[ "amount" := AInt 5 ]} : gmap string atom)
                          !! "token")))
    ∧ p !! "destination_chain_id"
      = Some (PAtom (default ANone
                       (({[ "amount" := AInt 5 ]} : gmap string atom)
                          !! "destinationChainId")))
    ∧ p !! "source_tx_hash" = Some (PAtom (AStr "0xdef"))
    ∧ p !! "block_number" = Some (PAtom (AInt 101))
    ∧ p !! "source_chain_id"
      = Some (PAtom (AInt (source_chain_id sample_cfg))).
Proof.
  apply (partial_log_is_still_delivered (world_with (λ _, http 200) [])
           sample_cfg partial_log "0xdef" (PAtom (AInt 101))
           {[ "amount" := AInt 5 ]} started_heap).
  - reflexivity.
  - reflexivity.
Defined.

(** The retry loop posts at least once, whatever the destination answers,
    and its first request carries the payload of [event_data]. *)
Lemma relay_posts_at_least_once
    (w : world) (cfg : config) (a : Z) (rest : list Z) (d : pydict)
    (h : heap) :
  complete d →
  ∃ tail,
    posted_payloads (trace (snd (relay_with_retries w cfg (a :: rest) d h)))
    = posted_payloads (trace h) ++ payload_of d :: tail.
Proof.
  intros Hd.
  set (E := relay_effects cfg d (post_outcome w (posts_made h))).
  destruct (relay_effects_observed cfg d (post_outcome w (posts_made h)))
    as (_ & _ & _ & HpE). fold E in HpE.
  cbn [relay_with_retries]. unfold bind at 1.
  rewrite relay_event_complete by done. fold E.
  destruct (relay_verdict (post_outcome w (posts_made h))) as [[|]|e].
  - exists []. unfold_monad.
    rewrite (complete_lookup d "transactionHash")
      by (done || (unfold relay_keys; set_solver)).
    cbn [snd trace extend emit].
    rewrite !posted_payloads_app, HpE. simpl. by rewrite ?app_nil_r.
  - set (h1 := extend 1 (E ++ [ELog WARNING
                 (MsgAttemptFailed (a + 1) (Z.of_nat max_retries));
                 ESleep (2 ^ a)]) h).
    destruct (relay_with_retries_bounded w cfg rest d h1 Hd)
      as (new & n & Hsnd & _).
    exists (posted_payloads new).
    unfold_monad. rewrite !emit_extend, <- !app_assoc.
    change (relay_with_retries w cfg rest d _)
      with (relay_with_retries w cfg rest d h1).
    rewrite Hsnd. unfold h1. cbn [trace extend emit].
    rewrite !posted_payloads_app, HpE. simpl. by rewrite <- app_assoc.
  - exists []. cbn [snd trace extend emit].
    rewrite !posted_payloads_app, HpE. simpl. by rewrite ?app_nil_r.
Qed.

(** A log that reaches the retry loop is posted at least once, and the
    first request carries its wire payload. *)
Lemma first_request_is_made
    (w : world) (cfg : config) (event : pydict) (tx : string) (block : pyval)
    (args : gmap string atom) (h : heap) :
  parse_log event = Some (tx, block, args) →
  ∃ rest,
    posted_payloads (trace (snd (_process_event w cfg event h)))
    = posted_payloads (trace h) ++ wire_payload cfg tx block args :: rest.
Proof.
  intros Hp. apply parse_log_Some in Hp as (Htx & Hb & Ha).
  rewrite (_process_event_well_formed w cfg event tx block args h) by done.
  change (py_range max_retries) with (0 :: [1; 2]).
  destruct (relay_posts_at_least_once w cfg 0 [1; 2]
              (processed_data_of cfg tx block args)
              (emit (ELog INFO (MsgNewEvent (event_name cfg) tx)) h))
    as [tail Htail].
  { apply processed_data_complete. }
  exists tail. rewrite Htail, payload_of_processed_data.
  cbn [trace emit]. rewrite posted_payloads_app. simpl.
  by rewrite app_nil_r.
Qed.

(** X18: integer amounts keep their value on the wire.  For two logs that
    reach the retry loop with integer amounts of at most 4300 digits (what
    [str] renders on every Python), the first payload [_process_event] posts
    for each carries the amount as a decimal string, and the two strings are
    equal only if the two integers are. *)
Theorem integer_amounts_keep_their_value
    (w w' : world) (cfg cfg' : config) (event event' : pydict)
    (tx tx' : string) (block block' : pyval)
    (args args' : gmap string atom) (n m : Z) (h h' : heap) :
  parse_log event = Some (tx, block, args) →
  parse_log event' = Some (tx', block', args') →
  args !! "amount" = Some (AInt n) →
  args' !! "amount" = Some (AInt m) →
  Z.abs n < 10 ^ 4300 →
  Z.abs m < 10 ^ 4300 →
  ∃ p rest p' rest' s s',
    posted_payloads (trace (snd (_process_event w cfg event h)))
    = posted_payloads (trace h) ++ p :: rest
    ∧ posted_payloads (trace (snd (_process_event w' cfg' event' h')))
      = posted_payloads (trace h') ++ p' :: rest'
    ∧ p !! "amount" = Some (PAtom (AStr s))
    ∧ p' !! "amount" = Some (PAtom (AStr s'))
    ∧ is_decimal s = true
    ∧ is_decimal s' = true
    ∧ (s = s' → n = m).
Proof.
  intros Hp Hp' Hn Hm _ _.
  destruct (first_request_is_made w cfg event tx block args h Hp)
    as [rest Hposted].
  destruct (first_request_is_made w' cfg' event' tx' block' args' h' Hp')
    as [rest' Hposted'].
  assert (∀ c t b (a : gmap string atom) k, a !! "amount" = Some (AInt k) →
            wire_payload c t b a !! "amount"
            = Some (PAtom (AStr (pretty k)))) as Hwire.
  { intros c t b a k Hk. unfold wire_payload, dict_get.
    by simplify_map_eq. }
  exists (wire_payload cfg tx block args), rest,
    (wire_payload cfg' tx' block' args'), rest', (pretty n), (pretty m).
  split_and!; try done.
  - by apply Hwire.
  - by apply Hwire.
  - apply (py_str_int_decimal n).
  - apply (py_str_int_decimal m).
  - apply (inj pretty).
Qed.

Lemma integer_amounts_keep_their_value_witness :
  ∃ p rest p' rest' s s',
    posted_payloads
      (trace (snd (_process_event world_500 sample_cfg sample_log
                     started_heap)))
    = posted_payloads (trace started_heap) ++ p :: rest
    ∧ posted_payloads
        (trace (snd (_process_event (world_with (λ _, http 200) [])
                       sample_cfg partial_log started_heap)))
      = posted_payloads (trace started_heap) ++ p' :: rest'
    ∧ p !! "amount" = Some (PAtom (AStr s))
    ∧ p' !! "amount" = Some (PAtom (AStr s'))
    ∧ is_decimal s = true
    ∧ is_decimal s' = true
    ∧ (s = s' → 1000000000000000000 = 5).
Proof.
  apply (integer_amounts_keep_their_value world_500
           (world_with (λ _, http 200) []) sample_cfg sample_cfg sample_log
           partial_log "0xabc" "0xdef" (PAtom (AInt 100)) (PAtom (AInt 101))
           sample_args {[ "amount" := AInt 5 ]} 1000000000000000000 5
           started_heap started_heap).
  - reflexivity.
  - reflexivity.
  - reflexivity.
  - reflexivity.
  - vm_compute. reflexivity.
  - vm_compute. reflexivity.
Defined.

(** X19: the ['args'] guard tests the presence of the key only.  A log
    whose ['args'] is there but is not a dictionary ([None], say) passes the
    guard and raises [AttributeError] at the first [.get], after the event
    line was logged and before any delivery call. *)
Theorem non_dict_args_raise
    (w : world) (cfg : config) (event : pydict) (tx : string) (block x : pyval)
    (h : heap) :
  event !! "transactionHash" = Some (PHexBytes tx) →
  event !! "blockNumber" = Some block →
  event !! "args" = Some x →
  (∀ d, x ≠ PDict d) →
  _process_event w cfg event h
  = (Raise (AttributeError "get"),
     emit (ELog INFO (MsgNewEvent (event_name cfg) tx)) h).
Proof.
  intros Htx Hb Ha Hx. unfold _process_event, hex, get. unfold_monad.
  rewrite Htx, Ha, Hb. simpl.
  destruct x as [a|hx|d]; [done | done |]. by destruct (Hx d).
Qed.

Lemma non_dict_args_raise_witness :
  _process_event world_500 sample_cfg log_with_null_args started_heap
  = (Raise (AttributeError "get"),
     emit (ELog INFO (MsgNewEvent (event_name sample_cfg) "0xabc"))
       started_heap).
Proof.
  apply (non_dict_args_raise world_500 sample_cfg log_with_null_args "0xabc"
           (PAtom (AInt 100)) (PAtom ANone) started_heap).
  - reflexivity.
  - reflexivity.
  - reflexivity.
  - intros d. discriminate.
Defined.

(** ** The constructor of the service *)

(** X20: [EventListenerService.__init__] succeeds exactly when the
    connector holds a contract and a provider, the event name is in the ABI,
    the node creates the filter and answers the block height; it then has
    asked for the filter first and the height second, and holds that filter
    and the height minus one.  When the height cannot be read the
    constructor raises what the node raised, after the filter was created
    and stored, and the cursor is left unset. *)
Theorem init_outcomes (w : world) (cfg : config) (h : heap) :
  let r := EventListenerService_init w cfg h in
  let ready f :=
    is_Some (contract h) ∧ event_name cfg ∈ contract_abi cfg
    ∧ create_filter_outcome w (filters_made h) = Ok f
    ∧ is_Some (web3 h) in
  (fst r = Ok tt
   ↔ ∃ f b, ready f ∧ block_number_outcome w (heights_read h) = Ok b)
  ∧ (∀ f b, ready f → block_number_outcome w (heights_read h) = Ok b →
            event_filter (snd r) = Some f
            ∧ last_processed_block (snd r) = Some (b - 1)
            ∧ trace (snd r)
              = trace h ++ [ECreateFilter (event_name cfg); EBlockNumber])
  ∧ (∀ f e, ready f → block_number_outcome w (heights_read h) = Raise e →
            fst r = Raise e
            ∧ event_filter (snd r) = Some f
            ∧ last_processed_block (snd r) = last_processed_block h).
Proof.
  unfold EventListenerService_init, _create_event_filter,
    get_latest_block_number.
  unfold_monad. simpl.
  destruct (contract h) as [c|]; simpl;
    [| split_and!; [split; [done |] | |];
       intros; destruct_and?; destruct_or?;
       repeat match goal with
              | H : ∃ _, _ |- _ => destruct H
              | H : _ ∧ _ |- _ => destruct H
              | H : is_Some None |- _ => by destruct H
              end].
  case_bool_decide as Habi; simpl;
    [| split_and!; [split; [done |] | |];
       intros;
       repeat match goal with
              | H : ∃ _, _ |- _ => destruct H
              | H : _ ∧ _ |- _ => destruct H
              end; done].
  destruct (create_filter_outcome w (filters_made h)) as [f|e]; simpl.
  - destruct (web3 h) as [w3|]; simpl.
    + destruct (block_number_outcome w (heights_read h)) as [b|e]; simpl.
      * split_and!.
        -- split; [intros _; by exists f, b | done].
        -- intros f' b' (_ & _ & [= <-] & _) [= <-].
           split_and!; try done. by rewrite <- !app_assoc.
        -- by intros f' e (_ & _ & _ & _) ?.
      * split_and!.
        -- split; [done |]. by intros (? & ? & _ & ?).
        -- by intros f' b (_ & _ & _ & _) ?.
        -- by intros f' e' (_ & _ & [= <-] & _) [= <-].
    + split_and!.
      * split; [done |]. by intros (? & ? & (_ & _ & _ & [? ?]) & _).
      * by intros f' b (_ & _ & _ & [? ?]) _.
      * by intros f' e (_ & _ & _ & [? ?]) _.
  - destruct (is_AttributeError e); simpl; split_and!;
      try (split; [done |]; by intros (? & ? & (_ & _ & ? & _) & _));
      by intros ? ? (_ & _ & ? & _) _.
Qed.
